(** * Lumi agent: graph routing, tool dispatch and SSE stream merging

  A shallow embedding of the Python sources
    - [app/graph/state.py]        (LumiState and its message reducer)
    - [app/graph/graph.py]        (create_lumi_graph)
    - [app/repositories/schedule.py] (ScheduleRepository.get_schedules)
    - [app/tools/executor.py]     (ToolExecutor)
    - [app/schemas/chat.py]       (StreamEvent)
    - [app/api/routes/chat.py]    (chat, stream_with_status, chat_stream)
  together with the properties the design document states about them. *)

From stdpp Require Import gmap strings list.
From Stdlib Require Import ZArith Lia.

Open Scope string_scope.
Open Scope list_scope.

(** ** Python values, dictionaries and exceptions *)

Module Py.

(** JSON-like Python values, as they occur in tool arguments, tool
    envelopes and storage records.  A [float] literal is kept as a decimal
    mantissa and exponent. *)
#[local] Unset Elimination Schemes.
Inductive value : Type :=
| PNone
| PBool (b : bool)
| PInt (z : Z)
| PFloat (mantissa exponent : Z)
| PStr (s : string)
| PList (l : list value)
| PDict (d : list (string * value)).
#[local] Set Elimination Schemes.

(** A [dict] with string keys, in insertion order. *)
Definition dict : Type := list (string * value).

(** An instance of [Exception], reduced to its [str(e)]. *)
Definition exn : Type := string.

(** The outcome of a call that may raise. *)
Inductive result (A : Type) : Type :=
| Ok (a : A)
| Raise (e : exn).
Arguments Ok {A} a.
Arguments Raise {A} e.

Definition bind {A B} (r : result A) (k : A -> result B) : result B :=
  match r with
  | Ok a => k a
  | Raise e => Raise e
  end.

(** [d.get(k)] without default, as an option. *)
Fixpoint lookup (d : dict) (k : string) : option value :=
  match d with
  | [] => None
  | (k', v) :: d' => if String.eqb k' k then Some v else lookup d' k
  end.

(** [d.get(k, default)] *)
Definition get (d : dict) (k : string) (default : value) : value :=
  match lookup d k with
  | Some v => v
  | None => default
  end.

(** Truthiness of a [str]: [bool(s)]. *)
Definition truthy_str (s : string) : bool := negb (String.eqb s "").

(** Truthiness of a [str | None]. *)
Definition truthy_opt (o : option string) : bool :=
  match o with
  | Some s => truthy_str s
  | None => false
  end.

(** Truthiness of an arbitrary value: [bool(v)]. *)
Definition truthy (v : value) : bool :=
  match v with
  | PNone => false
  | PBool b => b
  | PInt z => negb (Z.eqb z 0)
  | PFloat m _ => negb (Z.eqb m 0)
  | PStr s => truthy_str s
  | PList l => match l with [] => false | _ => true end
  | PDict d => match d with [] => false | _ => true end
  end.

(** [list] and [dict] are unhashable; using one as a dictionary key raises
    [TypeError]. *)
Definition hashable (v : value) : result unit :=
  match v with
  | PList _ => Raise "unhashable type: 'list'"
  | PDict _ => Raise "unhashable type: 'dict'"
  | _ => Ok tt
  end.

End Py.

#[global] Instance result_ret : MRet Py.result := @Py.Ok.
#[global] Instance result_bind : MBind Py.result :=
  fun A B k r => Py.bind r k.

(** ** app/graph/state.py *)

Module State.

(** The message classes the routes distinguish.  [AIMessageChunk] is a
    subclass of [AIMessage]. *)
Inductive message_class : Type :=
| HumanMessage
| AIMessage
| AIMessageChunk
| OtherMessage.

Record message : Type := Message { cls : message_class; content : string }.

Inductive Intent : Type := chat | rag | tool.

Record LumiState : Type := {
  messages : list message;
  intent : option Intent;
  retrieved_docs : list string;
  tool_name : option string;
  tool_args : option Py.dict;
  tool_result : option Py.dict;
  session_id : string;
  user_id : option string;
}.

(** What a node returns: the fields of [LumiState] it updates.  A field
    that is [None] here is a key absent from the returned dict. *)
Record Update : Type := {
  u_messages : option (list message);
  u_intent : option (option Intent);
  u_retrieved_docs : option (list string);
  u_tool_name : option (option string);
  u_tool_args : option (option Py.dict);
  u_tool_result : option (option Py.dict);
}.

Definition no_update : Update :=
  {| u_messages := None; u_intent := None; u_retrieved_docs := None;
     u_tool_name := None; u_tool_args := None; u_tool_result := None |}.

Definition present {A} (o : option A) : bool :=
  match o with
  | Some _ => true
  | None => false
  end.

(** [bool(update)]: a dict is truthy when it has a key. *)
Definition update_truthy (u : Update) : bool :=
  present (u_messages u) || present (u_intent u)
  || present (u_retrieved_docs u) || present (u_tool_name u)
  || present (u_tool_args u) || present (u_tool_result u).

(** [update.get("tool_name")] *)
Definition get_tool_name (u : Update) : option string :=
  match u_tool_name u with
  | Some v => v
  | None => None
  end.

(** The reducer of the [messages] channel: new messages are put at the
    end of the existing ones. *)
Definition add_messages (left right : list message) : list message :=
  left ++ right.

(** Applying a node's update: [messages] goes through its reducer, every
    other key present overwrites the field. *)
Definition apply_update (st : LumiState) (u : Update) : LumiState :=
  {| messages := match u_messages u with
                 | Some ms => add_messages (messages st) ms
                 | None => messages st
                 end;
     intent := default (intent st) (u_intent u);
     retrieved_docs := default (retrieved_docs st) (u_retrieved_docs u);
     tool_name := default (tool_name st) (u_tool_name u);
     tool_args := default (tool_args st) (u_tool_args u);
     tool_result := default (tool_result st) (u_tool_result u);
     session_id := session_id st;
     user_id := user_id st |}.

Definition apply_output (st : LumiState) (o : option Update) : LumiState :=
  match o with
  | Some u => apply_update st u
  | None => st
  end.

(** create_initial_state *)
Definition create_initial_state (sid : string) (uid : option string)
    (msgs : option (list message)) : LumiState :=
  {| messages := match msgs with
                 | Some (m :: ms) => m :: ms
                 | _ => []
                 end;
     intent := None;
     retrieved_docs := [];
     tool_name := None;
     tool_args := None;
     tool_result := None;
     session_id := sid;
     user_id := uid |}.

End State.

(** ** app/graph/graph.py *)

Module Graph.
Import State.

Definition START : string := "__start__".
Definition END : string := "__end__".

(** What one execution of a node produces: the messages its model calls
    emit while it runs (what stream mode "messages" reports) and the dict
    it returns (what stream mode "updates" reports). *)
Record NodeRun : Type := { emitted : list message; output : option Update }.

Definition node : Type := LumiState -> NodeRun.

(** A conditional edge: the routing function and its [path_map]. *)
Record Branch : Type := {
  source : string;
  path : LumiState -> Py.result string;
  path_map : list (string * string);
}.

(** The builder [StateGraph(LumiState)]. *)
Record StateGraph : Type := {
  nodes : list (string * node);
  edges : list (string * string);
  branches : list Branch;
}.

Definition new_builder : StateGraph :=
  {| nodes := []; edges := []; branches := [] |}.

Definition add_node (name : string) (fn : node) (b : StateGraph) : StateGraph :=
  {| nodes := nodes b ++ [(name, fn)]; edges := edges b; branches := branches b |}.

Definition add_edge (src dst : string) (b : StateGraph) : StateGraph :=
  {| nodes := nodes b; edges := edges b ++ [(src, dst)]; branches := branches b |}.

Definition add_conditional_edges (src : string)
    (p : LumiState -> Py.result string) (pm : list (string * string))
    (b : StateGraph) : StateGraph :=
  {| nodes := nodes b; edges := edges b;
     branches := branches b ++ [{| source := src; path := p; path_map := pm |}] |}.

(** Modelled from the spec: [app/graph/edges.py] (route_by_intent) is not
    among the sources.  The design document gives the routing as
    [rag -> Retriever], [tool -> ToolRunner], [chat -> Responder], and an
    unset intent as a fatal routing error; the keys are those of the
    [path_map] in [create_lumi_graph]. *)
Definition route_by_intent (st : LumiState) : Py.result string :=
  match intent st with
  | Some rag => Py.Ok "rag"
  | Some tool => Py.Ok "tool"
  | Some chat => Py.Ok "response"
  | None => Py.Raise "routing error: intent is unset"
  end.

(** *** Running a compiled graph

    The executor proceeds in supersteps: the nodes of the current frontier
    run on the current state, their updates are applied, and the outgoing
    edges of those nodes give the next frontier.  The run ends when only
    [END] is left, and is aborted after [recursion_limit] supersteps. *)

Fixpoint assoc {A} (k : string) (l : list (string * A)) : option A :=
  match l with
  | [] => None
  | (k', v) :: l' => if String.eqb k' k then Some v else assoc k l'
  end.

Definition static_targets (g : StateGraph) (n : string) : list string :=
  map snd (filter (fun e => String.eqb (fst e) n = true) (edges g)).

Definition branch_target (st : LumiState) (br : Branch) : Py.result string :=
  key ← path br st;
  match assoc key (path_map br) with
  | Some dst => Py.Ok dst
  | None => Py.Raise ("unknown branch destination: " +:+ key)
  end.

Fixpoint branch_targets (st : LumiState) (brs : list Branch) (n : string)
    : Py.result (list string) :=
  match brs with
  | [] => Py.Ok []
  | br :: brs' =>
      if String.eqb (source br) n then
        dst ← branch_target st br;
        rest ← branch_targets st brs' n;
        Py.Ok (dst :: rest)
      else branch_targets st brs' n
  end.

Definition targets (g : StateGraph) (st : LumiState) (n : string)
    : Py.result (list string) :=
  conditional ← branch_targets st (branches g) n;
  Py.Ok (static_targets g n ++ conditional).

Fixpoint frontier_targets (g : StateGraph) (st : LumiState)
    (active : list string) : Py.result (list string) :=
  match active with
  | [] => Py.Ok []
  | n :: rest =>
      here ← targets g st n;
      there ← frontier_targets g st rest;
      Py.Ok (here ++ there)
  end.

Fixpoint run_frontier (g : StateGraph) (st : LumiState)
    (active : list string) : Py.result (list (string * NodeRun)) :=
  match active with
  | [] => Py.Ok []
  | n :: rest =>
      match assoc n (nodes g) with
      | Some fn =>
          runs ← run_frontier g st rest;
          Py.Ok ((n, fn st) :: runs)
      | None => Py.Raise ("unknown node: " +:+ n)
      end
  end.

Definition is_end (n : string) : bool := String.eqb n END.

(** The trace of node executions so far, and how the run ended.  A superstep
    fails as a whole: when a node is unknown or a conditional edge raises,
    nothing of that superstep is published before the exception. *)
Fixpoint supersteps (fuel : nat) (g : StateGraph) (frontier : list string)
    (st : LumiState) : list (string * NodeRun) * Py.result LumiState :=
  match filter (fun n => is_end n = false) frontier with
  | [] => ([], Py.Ok st)
  | active =>
      match fuel with
      | O => ([], Py.Raise "Recursion limit reached")
      | S fuel' =>
          match run_frontier g st active with
          | Py.Raise e => ([], Py.Raise e)
          | Py.Ok runs =>
              let st' := fold_left apply_output (map (fun r => output (snd r)) runs) st in
              match frontier_targets g st' active with
              | Py.Raise e => ([], Py.Raise e)
              | Py.Ok next =>
                  let '(trace, outcome) := supersteps fuel' g next st' in
                  (runs ++ trace, outcome)
              end
          end
      end
  end.

Definition recursion_limit : nat := 25.

Definition run (g : StateGraph) (st : LumiState)
    : list (string * NodeRun) * Py.result LumiState :=
  supersteps recursion_limit g (static_targets g START) st.

(** The names of the nodes a run executes, in order. *)
Definition executed (g : StateGraph) (st : LumiState) : list string :=
  map fst (fst (run g st)).

(** [graph.ainvoke(state)] *)
Definition run_ainvoke (g : StateGraph) (st : LumiState) : Py.result LumiState :=
  snd (run g st).

(** The metadata that comes with a streamed message. *)
Record metadata : Type := { langgraph_node : option string }.

(** The items of [graph.astream(state, stream_mode=["updates", "messages"])]. *)
Inductive stream_item : Type :=
| Updates (event : list (string * option Update))
| Messages (msg : message) (meta : metadata)
| OtherMode (mode : string).

Definition node_items (r : string * NodeRun) : list stream_item :=
  map (fun m => Messages m {| langgraph_node := Some (fst r) |}) (emitted (snd r))
  ++ [Updates [(fst r, output (snd r))]].

(** [graph.astream(...)]: the items produced, and the exception that ended
    the iteration, if any. *)
Definition run_astream (g : StateGraph) (st : LumiState)
    : list stream_item * option Py.exn :=
  let '(trace, outcome) := run g st in
  (concat (map node_items trace),
   match outcome with
   | Py.Ok _ => None
   | Py.Raise e => Some e
   end).

(** The compiled graph, with the two entry points the routes call. *)
Record CompiledGraph : Type := {
  builder : StateGraph;
  ainvoke : LumiState -> Py.result LumiState;
  astream : LumiState -> list stream_item * option Py.exn;
}.

Definition compile (b : StateGraph) : CompiledGraph :=
  {| builder := b; ainvoke := run_ainvoke b; astream := run_astream b |}.

Section Build.

(** [app/graph/nodes.py] is not among the sources: the four node functions
    are parameters of the development. *)
Variables router_node rag_node tool_node response_node : node.

Definition create_lumi_graph : CompiledGraph :=
  let builder := new_builder in
  let builder := add_node "router" router_node builder in
  let builder := add_node "rag" rag_node builder in
  let builder := add_node "tool" tool_node builder in
  let builder := add_node "response" response_node builder in
  let builder := add_edge START "router" builder in
  let builder :=
    add_conditional_edges "router" route_by_intent
      [("rag", "rag"); ("tool", "tool"); ("response", "response")] builder in
  let builder := add_edge "rag" "response" builder in
  let builder := add_edge "tool" "response" builder in
  let builder := add_edge "response" END builder in
  compile builder.

End Build.

(** The state after a node has run and its update has been applied. *)
Definition after_node (fn : node) (st : LumiState) : LumiState :=
  apply_output st (output (fn st)).

(** The three paths through the graph. *)
Definition path_of (i : Intent) : list string :=
  match i with
  | chat => ["router"; "response"]
  | rag => ["router"; "rag"; "response"]
  | tool => ["router"; "tool"; "response"]
  end.

(** The destination the conditional edge picks for an intent. *)
Definition destination_of (i : Intent) : string :=
  match i with
  | chat => "response"
  | rag => "rag"
  | tool => "tool"
  end.

End Graph.

(** ** app/repositories/schedule.py *)

Module Schedule.
Import Py.

Inductive filter_op : Type := Gte | Lte | Eq.

(** A query as the client's builder methods assemble it. *)
Record Query : Type := {
  q_table : string;
  q_select : string;
  q_filters : list (filter_op * string * value);
  q_order : option string;
}.

Definition table (name : string) : Query :=
  {| q_table := name; q_select := ""; q_filters := []; q_order := None |}.

Definition select (cols : string) (q : Query) : Query :=
  {| q_table := q_table q; q_select := cols; q_filters := q_filters q;
     q_order := q_order q |}.

Definition add_filter (op : filter_op) (col : string) (v : value) (q : Query)
    : Query :=
  {| q_table := q_table q; q_select := q_select q;
     q_filters := q_filters q ++ [(op, col, v)]; q_order := q_order q |}.

Definition gte := add_filter Gte.
Definition lte := add_filter Lte.
Definition eq := add_filter Eq.

Definition order (col : string) (q : Query) : Query :=
  {| q_table := q_table q; q_select := q_select q; q_filters := q_filters q;
     q_order := Some col |}.

(** The query [get_schedules] sends for given filter parameters. *)
Definition build_query (start_date end_date event_type : value) : Query :=
  let query := select "*" (table "schedules") in
  let query := if truthy start_date then gte "start_time" start_date query else query in
  let query := if truthy end_date then lte "start_time" end_date query else query in
  let query := if truthy event_type then eq "event_type" event_type query else query in
  order "start_time" query.

Section Repository.

(** The storage client: executing a query gives [response.data] or raises. *)
Variable execute_query : Query -> result (list value).

(** ScheduleRepository.get_schedules: any exception of the read is logged
    and replaced by an empty list. *)
Definition get_schedules (start_date end_date event_type : value) : list value :=
  match execute_query (build_query start_date end_date event_type) with
  | Ok data => data
  | Raise e => []
  end.

End Repository.

End Schedule.

(** ** app/tools/executor.py *)

Module Executor.
Import Py.

Definition song (title album : string) : value :=
  PDict [("title", PStr title); ("album", PStr album)].

Definition LUMI_SONGS : list (string * list value) :=
  [ ("happy", [ song "Shine Bright" "First Light";
                song "Happy Day" "Luminous";
                song "Dancing Star" "First Light" ]);
    ("sad", [ song "Rainy Day" "Moonlight";
              song "Missing You" "Luminous" ]);
    ("energetic", [ song "Power Up" "Energy";
                    song "Let's Go!" "First Light";
                    song "On Fire" "Energy" ]);
    ("calm", [ song "Starlight" "Moonlight";
               song "Peaceful Night" "Moonlight" ]);
    ("romantic", [ song "First Love" "Luminous";
                   song "Heart Beat" "Luminous" ]) ].

Definition MOCK_WEATHER : dict :=
  [ ("location", PStr "서울");
    ("temperature", PInt 5);
    ("condition", PStr "맑음");
    ("humidity", PInt 45);
    ("wind_speed", PFloat 32 (-1)) ].

(** [table[key]] for a key known to be there; an absent key has no songs. *)
Definition songs_of (key : string) : list value :=
  default [] (Graph.assoc key LUMI_SONGS).

(** [LUMI_SONGS.get(mood, LUMI_SONGS["happy"])]: hashing the key comes
    first, and only a [str] can be equal to a key of the table. *)
Definition songs_for (mood : value) : result (list value) :=
  _ ← hashable mood;
  match mood with
  | PStr m =>
      match Graph.assoc m LUMI_SONGS with
      | Some songs => Ok songs
      | None => Ok (songs_of "happy")
      end
  | _ => Ok (songs_of "happy")
  end.

(** [random.choice(seq)], with the generator's draw [rnd] made explicit. *)
Definition random_choice (rnd : nat) (seq : list value) : result value :=
  match nth_error seq (rnd mod length seq) with
  | Some x => Ok x
  | None => Raise "Cannot choose from an empty sequence"
  end.

(** [v != s] for a string literal [s]. *)
Definition differs_from_str (v : value) (s : string) : bool :=
  match v with
  | PStr s' => negb (String.eqb s' s)
  | _ => true
  end.

(** [v[:50]] is only evaluated for the log line; it raises on a value that
    cannot be sliced. *)
Definition slice_prefix (v : value) : result unit :=
  match v with
  | PStr _ | PList _ => Ok tt
  | PNone => Raise "'NoneType' object is not subscriptable"
  | PBool _ => Raise "'bool' object is not subscriptable"
  | PInt _ => Raise "'int' object is not subscriptable"
  | PFloat _ _ => Raise "'float' object is not subscriptable"
  | PDict _ => Raise "unhashable type: 'slice'"
  end.

(** The names the [match] statement of [execute] has a case for. *)
Definition dispatch_table : list string :=
  ["get_schedule"; "send_fan_letter"; "recommend_song"; "get_weather"].

Definition failure (msg : string) : dict :=
  [("success", PBool false); ("error", PStr msg)].

Section Tools.

(** The storage read behind [ScheduleRepository]. *)
Variable execute_query : Schedule.Query -> result (list value).

(** [FanLetterRepository.create] ([app/repositories/fan_letter.py] is not
    among the sources): returns the identifier of the stored letter, or
    raises. *)
Variable create_letter :
  string -> option string -> value -> value -> result value.

Definition _get_schedule (args : dict) : dict :=
  let start_date := get args "start_date" PNone in
  let end_date := get args "end_date" PNone in
  let event_type := get args "event_type" (PStr "all") in
  let schedules :=
    Schedule.get_schedules execute_query start_date end_date
      (if differs_from_str event_type "all" then event_type else PNone) in
  match schedules with
  | [] =>
      [ ("success", PBool true);
        ("data", PDict [ ("schedules", PList []);
                         ("message", PStr "해당 기간에 예정된 스케줄이 없어요.") ]) ]
  | _ =>
      [ ("success", PBool true);
        ("data", PDict [ ("schedules", PList schedules);
                         ("count", PInt (Z.of_nat (length schedules))) ]) ]
  end.

Definition _send_fan_letter (args : dict) (session_id : string)
    (user_id : option string) : result dict :=
  let category := get args "category" (PStr "other") in
  let message := get args "message" (PStr "") in
  _ ← slice_prefix message;
  letter_id ← create_letter session_id user_id category message;
  Ok [ ("success", PBool true);
       ("data", PDict [ ("letter_id", letter_id);
                        ("message", PStr "팬레터가 잘 전달됐어요!") ]) ].

Definition _recommend_song (rnd : nat) (args : dict) : result dict :=
  let mood := get args "mood" (PStr "happy") in
  songs ← songs_for mood;
  selected ← random_choice rnd songs;
  Ok [ ("success", PBool true);
       ("data", PDict [ ("song", selected); ("mood", mood) ]);
       ("mock", PBool true) ].

Definition _get_weather (args : dict) : dict :=
  [ ("success", PBool true);
    ("data", PDict MOCK_WEATHER);
    ("mock", PBool true) ].

(** The [match] statement of [execute], before the [except] clause. *)
Definition dispatch (rnd : nat) (tool_name : string) (tool_args : dict)
    (session_id : string) (user_id : option string) : result dict :=
  if String.eqb tool_name "get_schedule" then
    Ok (_get_schedule tool_args)
  else if String.eqb tool_name "send_fan_letter" then
    _send_fan_letter tool_args session_id user_id
  else if String.eqb tool_name "recommend_song" then
    _recommend_song rnd tool_args
  else if String.eqb tool_name "get_weather" then
    Ok (_get_weather tool_args)
  else
    Ok (failure ("알 수 없는 Tool: " +:+ tool_name)).

(** ToolExecutor.execute: [except Exception as e] turns whatever the
    dispatched tool raises into a failure envelope. *)
Definition execute (rnd : nat) (tool_name : string) (tool_args : dict)
    (session_id : string) (user_id : option string) : dict :=
  match dispatch rnd tool_name tool_args session_id user_id with
  | Ok envelope => envelope
  | Raise e => failure e
  end.

End Tools.

End Executor.

(** ** app/schemas/chat.py *)

Module Schemas.

Record ChatRequest : Type := {
  message : string;
  session_id : string;
  user_id : option string;
}.

(** The [message] field is [reply] here, to keep it apart from the
    request's; [timestamp] is the wall-clock time of construction and is
    left out. *)
Record ChatResponse : Type := {
  reply : string;
  tool_used : option string;
  cached : bool;
}.

Inductive StreamEventType : Type :=
| thinking | tool | token | response | error | done.

(** The fields of [StreamEvent] that the routes fill in ([content],
    [tool_used] and [error], prefixed with [ev_]); [node], [tool_name] and
    [tool_result] keep their default [None] throughout.  [to_sse] only
    frames the event as text and is not modelled: a stream is the list of
    the events sent. *)
Record StreamEvent : Type := {
  type : StreamEventType;
  ev_content : option string;
  ev_tool_used : option string;
  ev_error : option string;
}.

Definition event (ty : StreamEventType) : StreamEvent :=
  {| type := ty; ev_content := None; ev_tool_used := None; ev_error := None |}.

Definition is_type (ty : StreamEventType) (e : StreamEvent) : bool :=
  match ty, type e with
  | thinking, thinking | tool, tool | token, token
  | response, response | error, error | done, done => true
  | _, _ => false
  end.

End Schemas.

(** ** app/api/routes/chat.py *)

Module Chat.
Import State.
Import Graph.

(** SESSION_STORE: session identifier to message history. *)
Abbreviation Store := (gmap string (list message)).

(** What a generator does, in order: the values it yields and its writes to
    the session store. *)
Inductive effect (Y : Type) : Type :=
| Yield (y : Y)
| EnsureSession (sid : string)
| Append (sid : string) (m : message).
Arguments Yield {Y} y.
Arguments EnsureSession {Y} sid.
Arguments Append {Y} sid m.

(** [EnsureSession] is [if sid not in SESSION_STORE: SESSION_STORE[sid] = []],
    [Append] is [SESSION_STORE[sid].append(m)], which the source only
    reaches after [EnsureSession] for the same key. *)
Definition apply_effect {Y} (store : Store) (e : effect Y) : Store :=
  match e with
  | Yield _ => store
  | EnsureSession sid =>
      match store !! sid with
      | Some _ => store
      | None => <[sid := []]> store
      end
  | Append sid m => alter (fun history => history ++ [m]) sid store
  end.

Definition apply_effects {Y} (effects : list (effect Y)) (store : Store) : Store :=
  fold_left apply_effect effects store.

Fixpoint yields {Y} (effects : list (effect Y)) : list Y :=
  match effects with
  | [] => []
  | Yield y :: rest => y :: yields rest
  | _ :: rest => yields rest
  end.

(** The tuples [stream_with_status] yields. *)
Record progress : Type := {
  p_status : option string;
  p_token : option string;
  p_final : option string;
  p_tool_used : option string;
}.

Definition status_tuple (s : string) : progress :=
  {| p_status := Some s; p_token := None; p_final := None; p_tool_used := None |}.

Definition token_tuple (t : string) : progress :=
  {| p_status := None; p_token := Some t; p_final := None; p_tool_used := None |}.

Definition final_tuple (text : string) (tool_used : option string) : progress :=
  {| p_status := None; p_token := None; p_final := Some text;
     p_tool_used := tool_used |}.

Definition node_status : list (string * string) :=
  [ ("router", "🔀 루미 생각 중...");
    ("rag", "📚 정보 검색 중...");
    ("tool", "🔧 도구 실행 중...");
    ("response", "💬 응답 작성 중...") ].

(** The local variables of the streaming loop. *)
Record loop : Type := {
  final_response : string;
  final_tool_name : option string;
  current_node : option string;
}.

Definition loop_start : loop :=
  {| final_response := ""; final_tool_name := None; current_node := None |}.

Definition is_node (current : option string) (name : string) : bool :=
  match current with
  | Some c => String.eqb c name
  | None => false
  end.

Definition output_truthy (o : option Update) : bool :=
  match o with
  | Some u => update_truthy u
  | None => false
  end.

(** One pass of [for node_name, node_output in event.items()]. *)
Definition on_update (st : loop) (entry : string * option Update)
    : loop * list progress :=
  let '(node_name, node_output) := entry in
  let '(st, out) :=
    match negb (is_node (current_node st) node_name), assoc node_name node_status with
    | true, Some label =>
        ({| final_response := final_response st;
            final_tool_name := final_tool_name st;
            current_node := Some node_name |},
         [status_tuple label])
    | _, _ => (st, [])
    end in
  let st :=
    if String.eqb node_name "tool" && output_truthy node_output then
      {| final_response := final_response st;
         final_tool_name := node_output ≫= get_tool_name;
         current_node := current_node st |}
    else st in
  (st, out).

Fixpoint on_updates (st : loop) (event : list (string * option Update))
    : loop * list progress :=
  match event with
  | [] => (st, [])
  | entry :: rest =>
      let '(st, out) := on_update st entry in
      let '(st, out') := on_updates st rest in
      (st, out ++ out')
  end.

(** The branch for mode "messages". *)
Definition on_message (st : loop) (msg : message) (meta : metadata)
    : loop * list progress :=
  let node_name := default "" (langgraph_node meta) in
  if negb (String.eqb node_name "response") then (st, [])
  else
    match cls msg with
    | AIMessageChunk =>
        let token := content msg in
        if Py.truthy_str token then
          ({| final_response := final_response st +:+ token;
              final_tool_name := final_tool_name st;
              current_node := current_node st |},
           [token_tuple token])
        else (st, [])
    | _ => (st, [])
    end.

(** The body of [async for mode, event in graph.astream(...)]. *)
Definition on_item (st : loop) (item : stream_item) : loop * list progress :=
  match item with
  | Updates event => on_updates st event
  | Messages msg meta => on_message st msg meta
  | OtherMode _ => (st, [])
  end.

Fixpoint consume (st : loop) (items : list stream_item) : loop * list progress :=
  match items with
  | [] => (st, [])
  | item :: rest =>
      let '(st, out) := on_item st item in
      let '(st, out') := consume st rest in
      (st, out ++ out')
  end.

(** [session_id or "default"] *)
Definition session_key (session_id : string) : string :=
  if Py.truthy_str session_id then session_id else "default".

Definition history_of (store : Store) (key : string) : list message :=
  default [] (store !! key).

(** The initial state [stream_with_status] builds. *)
Definition stream_initial_state (message session_id : string)
    (user_id : option string) (store : Store) : LumiState :=
  let session_id := session_key session_id in
  let history := history_of store session_id in
  let new_message := Message HumanMessage message in
  {| messages := history ++ [new_message];
     intent := None;
     retrieved_docs := [];
     tool_name := None;
     tool_args := None;
     tool_result := None;
     State.session_id := session_id;
     State.user_id := user_id |}.

(** The initial state [chat] builds. *)
Definition chat_initial_state (request : Schemas.ChatRequest) : LumiState :=
  {| messages := [Message HumanMessage (Schemas.message request)];
     intent := None;
     retrieved_docs := [];
     tool_name := None;
     tool_args := None;
     tool_result := None;
     State.session_id := Schemas.session_id request;
     State.user_id := Schemas.user_id request |}.

Section Routes.

(** [get_lumi_graph()] *)
Variable graph : CompiledGraph.

(** stream_with_status: its effects in order, and the exception that ended
    it if the graph's stream raised. *)
Definition stream_with_status (message session_id : string)
    (user_id : option string) (store : Store)
    : list (effect progress) * option Py.exn :=
  let initial_state := stream_initial_state message session_id user_id store in
  let session_id := session_key session_id in
  let new_message := Message HumanMessage message in
  let '(items, fault) := astream graph initial_state in
  let '(st, out) := consume loop_start items in
  match fault with
  | Some e => (map Yield out, Some e)
  | None =>
      let save :=
        if Py.truthy_str (final_response st) then
          [ EnsureSession session_id;
            Append session_id new_message;
            Append session_id (Message AIMessage (final_response st)) ]
        else [] in
      (map Yield out ++ save
       ++ [Yield (final_tuple (final_response st) (final_tool_name st))],
       None)
  end.

(** The SSE events [generate] sends for one tuple. *)
Definition events_of (p : progress) : list Schemas.StreamEvent :=
  (if Py.truthy_opt (p_status p) then
     [ {| Schemas.type := Schemas.thinking; Schemas.ev_content := p_status p;
          Schemas.ev_tool_used := None; Schemas.ev_error := None |} ]
   else [])
  ++ (if Py.truthy_opt (p_token p) then
        [ {| Schemas.type := Schemas.token; Schemas.ev_content := p_token p;
             Schemas.ev_tool_used := None; Schemas.ev_error := None |} ]
      else [])
  ++ (if Py.truthy_opt (p_final p) then
        [ {| Schemas.type := Schemas.response; Schemas.ev_content := p_final p;
             Schemas.ev_tool_used := p_tool_used p; Schemas.ev_error := None |} ]
      else []).

Definition relay (e : effect progress) : list (effect Schemas.StreamEvent) :=
  match e with
  | Yield p => map Yield (events_of p)
  | EnsureSession sid => [EnsureSession sid]
  | Append sid m => [Append sid m]
  end.

Definition error_event (e : Py.exn) : Schemas.StreamEvent :=
  {| Schemas.type := Schemas.error; Schemas.ev_content := None;
     Schemas.ev_tool_used := None; Schemas.ev_error := Some e |}.

(** The generator [generate] inside [chat_stream]. *)
Definition generate (request : Schemas.ChatRequest) (store : Store)
    : list (effect Schemas.StreamEvent) :=
  let '(effects, fault) :=
    stream_with_status (Schemas.message request) (Schemas.session_id request)
      (Schemas.user_id request) store in
  match fault with
  | None => concat (map relay effects) ++ [Yield (Schemas.event Schemas.done)]
  | Some e =>
      concat (map relay effects)
      ++ [Yield (error_event e); Yield (Schemas.event Schemas.done)]
  end.

(** chat_stream: the events the client receives, and the store afterwards. *)
Definition chat_stream (request : Schemas.ChatRequest) (store : Store)
    : list Schemas.StreamEvent * Store :=
  let effects := generate request store in
  (yields effects, apply_effects effects store).

(** The [HTTPException] of [chat]. *)
Record HTTPException : Type := { status_code : Z; detail : string }.

(** chat: the response or the HTTP error, and the store afterwards. *)
Definition chat (request : Schemas.ChatRequest) (store : Store)
    : (Schemas.ChatResponse + HTTPException) * Store :=
  let initial_state := chat_initial_state request in
  let attempt : Py.result Schemas.ChatResponse :=
    final_state ← ainvoke graph initial_state;
    let messages := messages final_state in
    if Nat.ltb (length messages) 2 then Py.Raise "응답 메시지가 없습니다."
    else
      match last messages with
      | Some m =>
          Py.Ok {| Schemas.reply := content m;
                   Schemas.tool_used := tool_name final_state;
                   Schemas.cached := false |}
      | None => Py.Raise "list index out of range"
      end in
  match attempt with
  | Py.Ok r => (inl r, store)
  | Py.Raise e =>
      (inr {| status_code := 500;
              detail := "에이전트 처리 중 오류가 발생했습니다: " +:+ e |},
       store)
  end.

(** *** Observations on a streaming run *)

(** The items and the exception of the graph's stream for a request. *)
Definition stream_items (message session_id : string)
    (user_id : option string) (store : Store) : list stream_item :=
  fst (astream graph (stream_initial_state message session_id user_id store)).

Definition stream_fault (message session_id : string)
    (user_id : option string) (store : Store) : option Py.exn :=
  snd (astream graph (stream_initial_state message session_id user_id store)).

(** [final_response] and [final_tool_name] when the loop is over. *)
Definition accumulated_text (message session_id : string)
    (user_id : option string) (store : Store) : string :=
  final_response
    (fst (consume loop_start (stream_items message session_id user_id store))).

Definition resolved_tool (message session_id : string)
    (user_id : option string) (store : Store) : option string :=
  final_tool_name
    (fst (consume loop_start (stream_items message session_id user_id store))).

(** The store after [stream_with_status] has been consumed. *)
Definition run_stream (message session_id : string)
    (user_id : option string) (store : Store) : Store :=
  apply_effects (fst (stream_with_status message session_id user_id store)) store.

(** A run that completed and accumulated some text. *)
Definition productive (message session_id : string)
    (user_id : option string) (store : Store) : bool :=
  match stream_fault message session_id user_id store with
  | None => Py.truthy_str (accumulated_text message session_id user_id store)
  | Some _ => false
  end.

(** Consecutive streaming runs of one session, and how many of them were
    productive. *)
Fixpoint run_streams (messages : list string) (session_id : string)
    (user_id : option string) (store : Store) : Store :=
  match messages with
  | [] => store
  | message :: rest =>
      run_streams rest session_id user_id
        (run_stream message session_id user_id store)
  end.

Fixpoint productive_runs (messages : list string) (session_id : string)
    (user_id : option string) (store : Store) : nat :=
  match messages with
  | [] => 0
  | message :: rest =>
      (if productive message session_id user_id store then 1 else 0)
      + productive_runs rest session_id user_id
          (run_stream message session_id user_id store)
  end.

(** The text of the final tuple, when the generator got to yield it. *)
Definition final_text (message session_id : string)
    (user_id : option string) (store : Store) : option string :=
  last (yields (fst (stream_with_status message session_id user_id store)))
  ≫= p_final.

End Routes.

(** Events that report progress: node status and tokens. *)
Definition is_progress (e : Schemas.StreamEvent) : bool :=
  Schemas.is_type Schemas.thinking e || Schemas.is_type Schemas.token e.

Definition response_event (text : string) (tool_used : option string)
    : Schemas.StreamEvent :=
  {| Schemas.type := Schemas.response; Schemas.ev_content := Some text;
     Schemas.ev_tool_used := tool_used; Schemas.ev_error := None |}.

(** The token a stream item carries for the user: the content of a message
    chunk that comes from the response node and is not empty. *)
Definition user_token (item : stream_item) : option string :=
  match item with
  | Messages msg meta =>
      match cls msg, langgraph_node meta with
      | AIMessageChunk, Some n =>
          if String.eqb n "response" && Py.truthy_str (content msg)
          then Some (content msg) else None
      | _, _ => None
      end
  | _ => None
  end.

(** What the loop yields before the final tuple: a status label or a token,
    neither of them empty. *)
Inductive progress_tuple : progress -> Prop :=
| progress_status label :
    Py.truthy_str label = true -> progress_tuple (status_tuple label)
| progress_token t :
    Py.truthy_str t = true -> progress_tuple (token_tuple t).

End Chat.

(** ** Modelled parts of app/graph/nodes.py *)

Module Nodes.
Import State.
Import Graph.

Section Responder.

(** The token-producing capability: the text fragments generated for a
    given state.  Being a function of the state, it is deterministic. *)
Variable token_source : LumiState -> list string.

(** Modelled from the spec: [app/graph/nodes.py] (response_node) is not
    among the sources.  The design document has the Responder append
    exactly one assistant message, and has token events emitted "only while
    Responder is generating its assistant message, each carrying an
    incremental text fragment": the fragments are streamed as chunks and the
    message holds their concatenation. *)
Definition response_node : node := fun st =>
  let fragments := token_source st in
  {| emitted := map (Message AIMessageChunk) fragments;
     output :=
       Some {| u_messages := Some [Message AIMessage (String.concat "" fragments)];
               u_intent := None; u_retrieved_docs := None;
               u_tool_name := None; u_tool_args := None;
               u_tool_result := None |} |}.

End Responder.

End Nodes.

(** ** Concrete nodes, graphs and requests *)

Module Examples.
Import State.
Import Graph.

Definition set_intent (i : Intent) : Update :=
  {| u_messages := None; u_intent := Some (Some i); u_retrieved_docs := None;
     u_tool_name := None; u_tool_args := None; u_tool_result := None |}.

(** A router that classifies through a model call, whose one fragment is
    streamed, and resolves the intent to [i]. *)
Definition router_to (i : Intent) : node := fun st =>
  {| emitted := [Message AIMessageChunk "chat"]; output := Some (set_intent i) |}.

Definition retrieve : node := fun st =>
  {| emitted := [];
     output :=
       Some {| u_messages := None; u_intent := None;
               u_retrieved_docs := Some ["doc"]; u_tool_name := None;
               u_tool_args := None; u_tool_result := None |} |}.

Definition run_tool : node := fun st =>
  {| emitted := [];
     output :=
       Some {| u_messages := None; u_intent := None; u_retrieved_docs := None;
               u_tool_name := Some (Some "get_weather");
               u_tool_args := None; u_tool_result := None |} |}.

(** A responder that answers with a fixed message without streaming it:
    stream mode "messages" reports the whole [AIMessage], not chunks. *)
Definition fixed_reply (text : string) : node := fun st =>
  {| emitted := [Message AIMessage text];
     output :=
       Some {| u_messages := Some [Message AIMessage text]; u_intent := None;
               u_retrieved_docs := None; u_tool_name := None;
               u_tool_args := None; u_tool_result := None |} |}.

(** The graph of the scenario: the router emits one fragment, the responder
    streams "안" and "녕". *)
Definition greeting_graph : CompiledGraph :=
  create_lumi_graph (router_to chat) retrieve run_tool
    (Nodes.response_node (fun _ => ["안"; "녕"])).

(** The same graph with a responder that does not stream. *)
Definition quiet_graph : CompiledGraph :=
  create_lumi_graph (router_to chat) retrieve run_tool (fixed_reply "잠시 후 다시 시도해 주세요.").

(** A graph whose router leaves the intent unset. *)
Definition unrouted_graph : CompiledGraph :=
  create_lumi_graph (fun st => {| emitted := []; output := None |})
    retrieve run_tool (fixed_reply "?").

Definition hello : Schemas.ChatRequest :=
  {| Schemas.message := "안녕"; Schemas.session_id := "s1";
     Schemas.user_id := None |}.

Definition no_sessions : gmap string (list message) := ∅.

(** A storage client that is down, one that has no rows, and a fan-letter
    store that is down. *)
Definition storage_down (q : Schedule.Query) : Py.result (list Py.value) :=
  Py.Raise "connection refused".

Definition storage_empty (q : Schedule.Query) : Py.result (list Py.value) :=
  Py.Ok [].

Definition letters_down (session_id : string) (user_id : option string)
    (category message : Py.value) : Py.result Py.value :=
  Py.Raise "insert failed".

Definition initial (sid : string) : LumiState :=
  create_initial_state sid None None.

End Examples.

(** ** What a client and the next run observe *)

Module Merge.
Import State.
Import Graph.
Import Chat.

(** The status labels and the tokens among the tuples of a run. *)
Definition statuses (out : list progress) : list string := omap p_status out.

Definition tokens (out : list progress) : list string := omap p_token out.

(** The contents of the events of one type, in the order they were sent. *)
Definition sent (ty : Schemas.StreamEventType)
    (events : list Schemas.StreamEvent) : list (option string) :=
  map Schemas.ev_content (filter (fun e => Schemas.is_type ty e = true) events).

(** The label of the node the loop is currently in, when it has one. *)
Definition current_label (st : loop) : option string :=
  current_node st ≫= (fun n => assoc n node_status).

(** No label follows itself, the first one not following [prev]. *)
Fixpoint alternating (prev : option string) (labels : list string) : Prop :=
  match labels with
  | [] => True
  | l :: rest => prev <> Some l /\ alternating (Some l) rest
  end.

(** What the statuses of a stretch of the loop satisfy: no label follows
    itself, the loop ends in the node of the last one, and every label is
    one of [node_status]. *)
Definition status_invariant (st st' : loop) (out : list progress) : Prop :=
  alternating (current_label st) (statuses out)
  /\ current_label st' = from_option Some (current_label st) (last (statuses out))
  /\ Forall (fun l => In l (map snd node_status)) (statuses out).

(** The tool names that the updates of the tool node report: one entry per
    update of a node called "tool" whose dict is not empty. *)
Definition reported_tool (entry : string * option Update)
    : option (option string) :=
  if String.eqb (fst entry) "tool" && output_truthy (snd entry)
  then Some (snd entry ≫= get_tool_name) else None.

Definition reported_tools (items : list stream_item)
    : list (option string) :=
  concat (map (fun item =>
                 match item with
                 | Updates event => omap reported_tool event
                 | _ => []
                 end) items).

(** A history made of turns: a user message followed by a non-empty
    assistant message, any number of times. *)
Fixpoint paired (history : list message) : bool :=
  match history with
  | [] => true
  | Message HumanMessage _ :: Message AIMessage text :: rest =>
      Py.truthy_str text && paired rest
  | _ => false
  end.

End Merge.

(** ** get_lumi_graph and its module-level cache *)

Module Singleton.
Import State.
Import Graph.

Section Cache.

Variables router_node rag_node tool_node response_node : node.

(** get_lumi_graph: [cache] is the global [_compiled_graph]; the result is
    the graph returned, the global afterwards, and how many times
    [create_lumi_graph] was called. *)
Definition get_lumi_graph (cache : option CompiledGraph)
    : CompiledGraph * option CompiledGraph * nat :=
  match cache with
  | None =>
      let g := create_lumi_graph router_node rag_node tool_node response_node in
      (g, Some g, 1)
  | Some g => (g, Some g, 0)
  end.

(** [n] calls in a row: the graphs returned, the global afterwards and the
    number of compilations. *)
Fixpoint calls (n : nat) (cache : option CompiledGraph)
    : list CompiledGraph * option CompiledGraph * nat :=
  match n with
  | O => ([], cache, 0)
  | S n' =>
      let '(g, cache', k) := get_lumi_graph cache in
      let '(gs, cache'', k') := calls n' cache' in
      (g :: gs, cache'', k + k')
  end.

End Cache.

End Singleton.

(** ** The query and the envelopes of the tools *)

Module Tooling.
Import Py.

(** The query [_get_schedule] has [get_schedules] send for its arguments. *)
Definition schedule_query (args : dict) : Schedule.Query :=
  let event_type := get args "event_type" (PStr "all") in
  Schedule.build_query (get args "start_date" PNone) (get args "end_date" PNone)
    (if Executor.differs_from_str event_type "all" then event_type else PNone).

Definition is_eq_filter (f : Schedule.filter_op * string * value) : bool :=
  match f with
  | (Schedule.Eq, _, _) => true
  | _ => false
  end.

(** [envelope["success"] is True] *)
Definition is_success (envelope : dict) : bool :=
  match lookup envelope "success" with
  | Some (PBool true) => true
  | _ => false
  end.

(** Every song of every mood. *)
Definition all_songs : list value :=
  concat (map snd Executor.LUMI_SONGS).

End Tooling.

(** ** scripts/ai_reviewer.py *)

Module Reviewer.

(** A [str] as its sequence of code points, which is what [len] and slicing
    count. *)
Definition text : Type := list nat.

(** The result of the two [subprocess.run(..., check=True)] calls. *)
Inductive completed : Type :=
| Completed (stdout : text)
| CalledProcessError.

(** get_diff: the fetch comes first; a failure of either command is printed
    and gives [None]. *)
Definition get_diff (fetch diff : completed) : option text :=
  match fetch with
  | CalledProcessError => None
  | Completed _ =>
      match diff with
      | CalledProcessError => None
      | Completed stdout => Some stdout
      end
  end.

(** "\n...(truncated)..." *)
Definition truncated_marker : text :=
  [10; 46; 46; 46; 40; 116; 114; 117; 110; 99; 97; 116; 101; 100; 41; 46; 46; 46].

(** The limit of step 3, 10000 characters. *)
Definition diff_limit : nat := 100 * 100.

(** Step 3 of [main]: a diff of more than 10000 characters is cut. *)
Definition clip (diff : text) : text :=
  if Nat.ltb diff_limit (length diff)
  then take diff_limit diff ++ truncated_marker
  else diff.

(** What [main] prints. *)
Inductive printed : Type :=
| MissingKey
| NothingToReview
| Review (content : text)
| ReviewFailed (e : Py.exn).

(** [bool(os.getenv(...))] and [bool(diff)] *)
Definition truthy_text (t : option text) : bool :=
  match t with
  | Some (_ :: _) => true
  | _ => false
  end.

(** main: what is printed, and the argument of [sys.exit] when it is
    called.  [api_key] is the environment variable, [invoke] the chain
    applied to the diff. *)
Definition main (api_key : option text) (fetch diff : completed)
    (invoke : text -> Py.result text) : printed * option Z :=
  if negb (truthy_text api_key) then (MissingKey, Some 1%Z)
  else
    match get_diff fetch diff with
    | Some (c :: rest) =>
        match invoke (clip (c :: rest)) with
        | Py.Ok content => (Review content, None)
        | Py.Raise e => (ReviewFailed e, Some 1%Z)
        end
    | _ => (NothingToReview, Some 0%Z)
    end.

End Reviewer.

(** ** Further concrete inputs *)

Module Samples.
Import State.
Import Graph.

(** The graph of a tool turn: the tool node reports "get_weather" and the
    responder streams one fragment. *)
Definition weather_graph : CompiledGraph :=
  create_lumi_graph (Examples.router_to tool) Examples.retrieve
    Examples.run_tool (Nodes.response_node (fun _ => ["맑음"])).

Definition weather : Schemas.ChatRequest :=
  {| Schemas.message := "날씨"; Schemas.session_id := "s1";
     Schemas.user_id := None |}.

(** A graph whose stream raises while the responder is generating: the
    router's update and one token have been delivered when the model call
    fails. *)
Definition interrupted_graph : CompiledGraph :=
  {| builder := builder Examples.greeting_graph;
     ainvoke := fun _ => Py.Raise "model unavailable";
     astream := fun _ =>
       ([ Updates [("router", Some (Examples.set_intent chat))];
          Messages (Message AIMessageChunk "안")
            {| langgraph_node := Some "response" |} ],
        Some "model unavailable") |}.

(** A storage client that has one row, and a fan-letter store that works. *)
Definition storage_one (q : Schedule.Query) : Py.result (list Py.value) :=
  Py.Ok [Py.PDict [("title", Py.PStr "뮤직뱅크")]].

Definition letters_ok (session_id : string) (user_id : option string)
    (category message : Py.value) : Py.result Py.value :=
  Py.Ok (Py.PInt 7).

End Samples.

(** * Properties *)

Import State.
Import Graph.

(** ** The graph *)

Section GraphProperties.

Variables router_node rag_node tool_node response_node : node.

Lemma entry_is_router :
  static_targets
    (builder (create_lumi_graph router_node rag_node tool_node response_node))
    START = ["router"].
Proof. reflexivity. Qed.

Lemma router_targets st i :
  intent st = Some i ->
  targets
    (builder (create_lumi_graph router_node rag_node tool_node response_node))
    st "router" = Py.Ok [destination_of i].
Proof.
  intros Hi. unfold targets. cbn. unfold branch_target, route_by_intent.
  cbn. rewrite Hi. destruct i; reflexivity.
Qed.

Lemma inner_targets st :
  let g := builder (create_lumi_graph router_node rag_node tool_node response_node) in
  targets g st "rag" = Py.Ok ["response"]
  /\ targets g st "tool" = Py.Ok ["response"]
  /\ targets g st "response" = Py.Ok [END].
Proof. repeat split; reflexivity. Qed.

Lemma superstep_single fuel (g : StateGraph) n fn st next :
  is_end n = false ->
  assoc n (nodes g) = Some fn ->
  targets g (after_node fn st) n = Py.Ok next ->
  supersteps (S fuel) g [n] st
  = (let '(trace, outcome) := supersteps fuel g next (after_node fn st) in
     ((n, fn st) :: trace, outcome)).
Proof.
  intros Hend Hfn Hnext. cbn [supersteps].
  replace (filter (fun n0 => is_end n0 = false) [n]) with [n].
  2:{ cbn. rewrite decide_True by exact Hend. reflexivity. }
  cbn [run_frontier]. rewrite Hfn. cbn.
  change (apply_output st (output (fn st))) with (after_node fn st).
  rewrite Hnext. cbn. rewrite app_nil_r.
  destruct (supersteps fuel g next (after_node fn st)). reflexivity.
Qed.

Lemma superstep_end fuel (g : StateGraph) st :
  supersteps fuel g [END] st = ([], Py.Ok st).
Proof. destruct fuel; reflexivity. Qed.

Lemma run_resolved st0 i :
  intent (after_node router_node st0) = Some i ->
  let g := builder (create_lumi_graph router_node rag_node tool_node response_node) in
  let st1 := after_node router_node st0 in
  run g st0 =
  match i with
  | chat =>
      ([("router", router_node st0); ("response", response_node st1)],
       Py.Ok (after_node response_node st1))
  | rag =>
      let st2 := after_node rag_node st1 in
      ([("router", router_node st0); ("rag", rag_node st1);
        ("response", response_node st2)],
       Py.Ok (after_node response_node st2))
  | tool =>
      let st2 := after_node tool_node st1 in
      ([("router", router_node st0); ("tool", tool_node st1);
        ("response", response_node st2)],
       Py.Ok (after_node response_node st2))
  end.
Proof.
  intros Hi g st1. unfold run, recursion_limit.
  change (static_targets g START) with ["router"].
  rewrite (superstep_single _ g "router" router_node st0 [destination_of i]);
    [ | reflexivity | reflexivity | apply router_targets; exact Hi ].
  fold st1.
  destruct i; cbn [destination_of].
  - rewrite (superstep_single _ g "response" response_node st1 [END]);
      [ | reflexivity | reflexivity | reflexivity ].
    rewrite superstep_end. reflexivity.
  - rewrite (superstep_single _ g "rag" rag_node st1 ["response"]);
      [ | reflexivity | reflexivity | reflexivity ].
    rewrite (superstep_single _ g "response" response_node _ [END]);
      [ | reflexivity | reflexivity | reflexivity ].
    rewrite superstep_end. reflexivity.
  - rewrite (superstep_single _ g "tool" tool_node st1 ["response"]);
      [ | reflexivity | reflexivity | reflexivity ].
    rewrite (superstep_single _ g "response" response_node _ [END]);
      [ | reflexivity | reflexivity | reflexivity ].
    rewrite superstep_end. reflexivity.
Qed.

(** C1: when the router resolves the intent, the nodes executed are exactly
    [router; response], [router; rag; response] or [router; tool; response]
    according to the intent; the run starts at the router, the conditional
    edge after it sends rag, tool and chat to the rag, tool and response
    nodes, rag and tool lead to response, response leads to END, the run
    ends normally and no node is entered twice. *)
Theorem node_sequence_by_intent (st0 : LumiState) (i : Intent) :
  intent (after_node router_node st0) = Some i ->
  let g := builder (create_lumi_graph router_node rag_node tool_node response_node) in
  static_targets g START = ["router"]
  /\ targets g (after_node router_node st0) "router" = Py.Ok [destination_of i]
  /\ (forall st, targets g st "rag" = Py.Ok ["response"])
  /\ (forall st, targets g st "tool" = Py.Ok ["response"])
  /\ (forall st, targets g st "response" = Py.Ok [END])
  /\ executed g st0 = path_of i
  /\ (executed g st0 = ["router"; "response"]
      \/ executed g st0 = ["router"; "rag"; "response"]
      \/ executed g st0 = ["router"; "tool"; "response"])
  /\ NoDup (executed g st0)
  /\ (exists final_state, run_ainvoke g st0 = Py.Ok final_state).
Proof.
  intros Hi g.
  assert (Hex : executed g st0 = path_of i).
  { unfold executed. subst g. rewrite (run_resolved st0 i Hi).
    destruct i; reflexivity. }
  split; [reflexivity |].
  split; [apply router_targets; exact Hi |].
  split; [intros st; reflexivity |].
  split; [intros st; reflexivity |].
  split; [intros st; reflexivity |].
  split; [exact Hex |].
  split; [rewrite Hex; destruct i; cbn; auto |].
  split.
  - rewrite Hex. destruct i; apply (bool_decide_unpack _); reflexivity.
  - unfold run_ainvoke. subst g. rewrite (run_resolved st0 i Hi).
    destruct i; eexists; reflexivity.
Qed.

End GraphProperties.

(** ** The tool executor *)

Section ExecutorProperties.
Import Py.
Import Executor.

Variable execute_query : Schedule.Query -> result (list value).
Variable create_letter :
  string -> option string -> value -> value -> result value.

Lemma random_choice_in rnd (seq : list value) :
  seq <> [] -> exists x, random_choice rnd seq = Ok x /\ In x seq.
Proof.
  intros Hne. unfold random_choice.
  assert (Hlt : rnd mod length seq < length seq).
  { apply Nat.mod_upper_bound. destruct seq; [congruence | discriminate]. }
  destruct (nth_error seq (rnd mod length seq)) as [x |] eqn:Hx.
  - exists x. split; [reflexivity |]. eapply nth_error_In. exact Hx.
  - apply nth_error_None in Hx. lia.
Qed.

Lemma dispatch_unknown rnd name args sid uid :
  ~ In name dispatch_table ->
  dispatch execute_query create_letter rnd name args sid uid
  = Ok (failure ("알 수 없는 Tool: " +:+ name)).
Proof.
  intros Hnot. unfold dispatch.
  destruct (String.eqb_spec name "get_schedule") as [-> | _].
  { exfalso. apply Hnot. cbn. auto. }
  destruct (String.eqb_spec name "send_fan_letter") as [-> | _].
  { exfalso. apply Hnot. cbn. auto. }
  destruct (String.eqb_spec name "recommend_song") as [-> | _].
  { exfalso. apply Hnot. cbn. auto. }
  destruct (String.eqb_spec name "get_weather") as [-> | _].
  { exfalso. apply Hnot. cbn. auto. }
  reflexivity.
Qed.

(** C3 (as amended): for a tool name outside the dispatch table, whatever
    the arguments, session and user, [execute] returns the failure envelope
    whose error text is "알 수 없는 Tool: <name>"; and for every tool name,
    [execute] returns the envelope of the dispatched tool when it returns
    one, and the failure envelope carrying the exception's message when it
    raises, as when storing a fan letter fails. *)
Theorem execute_never_raises rnd name args sid uid :
  (~ In name dispatch_table ->
   execute execute_query create_letter rnd name args sid uid
   = [("success", PBool false); ("error", PStr ("알 수 없는 Tool: " +:+ name))])
  /\ (forall e,
        dispatch execute_query create_letter rnd name args sid uid = Raise e ->
        execute execute_query create_letter rnd name args sid uid
        = [("success", PBool false); ("error", PStr e)])
  /\ (forall envelope,
        dispatch execute_query create_letter rnd name args sid uid = Ok envelope ->
        execute execute_query create_letter rnd name args sid uid = envelope)
  /\ (forall e,
        slice_prefix (get args "message" (PStr "")) = Ok tt ->
        create_letter sid uid (get args "category" (PStr "other"))
          (get args "message" (PStr "")) = Raise e ->
        execute execute_query create_letter rnd "send_fan_letter" args sid uid
        = [("success", PBool false); ("error", PStr e)]).
Proof.
  repeat split.
  - intros Hnot. unfold execute. rewrite dispatch_unknown by exact Hnot.
    reflexivity.
  - intros e He. unfold execute. rewrite He. reflexivity.
  - intros envelope He. unfold execute. rewrite He. reflexivity.
  - intros e Hslice Hcreate. unfold execute, dispatch. cbn.
    unfold _send_fan_letter. rewrite Hslice. cbn. rewrite Hcreate. reflexivity.
Qed.

(** C8: [execute] on "recommend_song" with [{mood: "sad"}] returns
    [{success: true, data: {song: s, mood: "sad"}, mock: true}] with [s] one
    of the two songs of the "sad" table, whatever the random draw; and when
    the arguments have no "mood" key the mood reported is "happy" and the
    song comes from the "happy" table. *)
Theorem recommend_song_envelope rnd sid uid :
  (exists s,
     execute execute_query create_letter rnd "recommend_song"
       [("mood", PStr "sad")] sid uid
     = [ ("success", PBool true);
         ("data", PDict [("song", s); ("mood", PStr "sad")]);
         ("mock", PBool true) ]
     /\ (s = song "Rainy Day" "Moonlight" \/ s = song "Missing You" "Luminous"))
  /\ (forall args,
        lookup args "mood" = None ->
        exists s,
          execute execute_query create_letter rnd "recommend_song" args sid uid
          = [ ("success", PBool true);
              ("data", PDict [("song", s); ("mood", PStr "happy")]);
              ("mock", PBool true) ]
          /\ In s (songs_of "happy")).
Proof.
  split.
  - destruct (random_choice_in rnd (songs_of "sad")) as (s & Hs & Hin);
      [discriminate |].
    exists s. split.
    + unfold execute, dispatch. cbn [String.eqb Ascii.eqb Bool.eqb].
      unfold _recommend_song, get. cbn [lookup String.eqb Ascii.eqb Bool.eqb].
      change (songs_for (PStr "sad")) with (Ok (songs_of "sad")).
      cbn [mbind result_bind bind]. rewrite Hs. reflexivity.
    + cbn in Hin. destruct Hin as [<- | [<- | []]]; auto.
  - intros args Hmood.
    destruct (random_choice_in rnd (songs_of "happy")) as (s & Hs & Hin);
      [discriminate |].
    exists s. split; [| exact Hin].
    unfold execute, dispatch. cbn [String.eqb Ascii.eqb Bool.eqb].
    unfold _recommend_song, get. rewrite Hmood.
    change (songs_for (PStr "happy")) with (Ok (songs_of "happy")).
    cbn [mbind result_bind bind]. rewrite Hs. reflexivity.
Qed.

(** C9: whatever the filter parameters, [get_schedules] gives the empty list
    when the storage read raises; and whenever the list it gives is empty,
    [_get_schedule] returns the success envelope with no schedules and the
    no-schedule message, which is then also what [execute] returns. *)
Theorem empty_read_is_success start_date end_date event_type args rnd sid uid :
  (forall e,
     execute_query (Schedule.build_query start_date end_date event_type) = Raise e ->
     Schedule.get_schedules execute_query start_date end_date event_type = [])
  /\ (Schedule.get_schedules execute_query
        (get args "start_date" PNone) (get args "end_date" PNone)
        (if differs_from_str (get args "event_type" (PStr "all")) "all"
         then get args "event_type" (PStr "all") else PNone) = [] ->
      _get_schedule execute_query args
      = [ ("success", PBool true);
          ("data", PDict [ ("schedules", PList []);
                           ("message", PStr "해당 기간에 예정된 스케줄이 없어요.") ]) ]
      /\ execute execute_query create_letter rnd "get_schedule" args sid uid
         = _get_schedule execute_query args).
Proof.
  split.
  - intros e He. unfold Schedule.get_schedules. rewrite He. reflexivity.
  - intros Hempty. split; [| reflexivity].
    unfold _get_schedule. rewrite Hempty. reflexivity.
Qed.

End ExecutorProperties.

(** ** The streaming loop *)

Section LoopProperties.
Import Chat.

Lemma node_status_truthy name label :
  assoc name node_status = Some label -> Py.truthy_str label = true.
Proof.
  unfold node_status. cbn [assoc].
  repeat (destruct (String.eqb _ name);
          [intros [= <-]; reflexivity |]).
  discriminate.
Qed.

Lemma on_update_spec st entry :
  final_response (fst (on_update st entry)) = final_response st
  /\ Forall progress_tuple (snd (on_update st entry))
  /\ Forall (fun p => p_token p = None) (snd (on_update st entry)).
Proof.
  destruct entry as [name out]. unfold on_update.
  destruct (negb (is_node (current_node st) name)) eqn:Hcur;
    destruct (assoc name node_status) as [label |] eqn:Hlabel;
    destruct (String.eqb name "tool" && output_truthy out);
    cbn; repeat split; repeat constructor.
  all: eapply node_status_truthy; exact Hlabel.
Qed.

Lemma on_updates_spec event : forall st,
  final_response (fst (on_updates st event)) = final_response st
  /\ Forall progress_tuple (snd (on_updates st event))
  /\ Forall (fun p => p_token p = None) (snd (on_updates st event)).
Proof.
  induction event as [| entry rest IH]; intros st; cbn [on_updates].
  - repeat split; constructor.
  - destruct (on_update_spec st entry) as (Hf & Hp & Hn).
    destruct (on_update st entry) as [st1 out1]. cbn in Hf, Hp, Hn.
    destruct (IH st1) as (Hf' & Hp' & Hn').
    destruct (on_updates st1 rest) as [st2 out2]. cbn in *.
    repeat split; [congruence | |]; apply Forall_app; split; assumption.
Qed.

(** A message item either passes its token on and appends it, or changes
    nothing. *)
Lemma on_message_spec st msg meta :
  match user_token (Messages msg meta) with
  | Some t =>
      on_message st msg meta
      = ({| final_response := final_response st +:+ t;
            final_tool_name := final_tool_name st;
            current_node := current_node st |}, [token_tuple t])
      /\ Py.truthy_str t = true /\ t = content msg
  | None => on_message st msg meta = (st, [])
  end.
Proof.
  unfold user_token, on_message.
  destruct (langgraph_node meta) as [n |]; cbn [default from_option id].
  - destruct (String.eqb n "response") eqn:Hn; cbn [negb andb].
    + destruct (cls msg); try reflexivity.
      destruct (Py.truthy_str (content msg)) eqn:Ht; [| reflexivity].
      repeat split; assumption.
    + destruct (cls msg); reflexivity.
  - cbn. destruct (cls msg); reflexivity.
Qed.

Lemma on_item_progress st item :
  Forall progress_tuple (snd (on_item st item)).
Proof.
  destruct item as [event | msg meta | mode]; cbn [on_item].
  - apply on_updates_spec.
  - pose proof (on_message_spec st msg meta) as H.
    destruct (user_token (Messages msg meta)) as [t |].
    + destruct H as (-> & Ht & _). cbn. repeat constructor. exact Ht.
    + rewrite H. constructor.
  - constructor.
Qed.

Lemma consume_progress items : forall st,
  Forall progress_tuple (snd (consume st items)).
Proof.
  induction items as [| item rest IH]; intros st; cbn [consume].
  - constructor.
  - pose proof (on_item_progress st item) as H1.
    destruct (on_item st item) as [st1 out1].
    specialize (IH st1). destruct (consume st1 rest) as [st2 out2].
    cbn in *. apply Forall_app. split; assumption.
Qed.

Lemma consume_app a : forall st b,
  consume st (a ++ b)
  = (let '(st1, out1) := consume st a in
     let '(st2, out2) := consume st1 b in
     (st2, out1 ++ out2)).
Proof.
  induction a as [| item rest IH]; intros st b; cbn [consume app].
  - destruct (consume st b). reflexivity.
  - destruct (on_item st item) as [st1 out1]. rewrite IH.
    destruct (consume st1 rest) as [st2 out2].
    destruct (consume st2 b) as [st3 out3].
    rewrite app_assoc. reflexivity.
Qed.

Lemma events_of_progress p :
  progress_tuple p ->
  exists e, events_of p = [e] /\ is_progress e = true.
Proof.
  intros [label Hl | t Ht]; unfold events_of; cbn; rewrite ?Hl, ?Ht; cbn;
    eexists; split; reflexivity.
Qed.

Lemma relay_progress (out : list progress) :
  Forall progress_tuple out ->
  exists prefix,
    concat (map relay (map Yield out)) = map Yield prefix
    /\ Forall (fun e => is_progress e = true) prefix.
Proof.
  induction 1 as [| p out Hp _ IH].
  - exists []. split; [reflexivity | constructor].
  - destruct IH as (prefix & Heq & Hall).
    destruct (events_of_progress p Hp) as (e & He & Hprog).
    exists (e :: prefix). split; [| constructor; assumption].
    cbn. rewrite He, Heq. reflexivity.
Qed.

End LoopProperties.

(** ** The session store *)

Section StoreProperties.
Import Chat.

Lemma apply_effects_app {Y} (a b : list (effect Y)) (store : Store) :
  apply_effects (a ++ b) store = apply_effects b (apply_effects a store).
Proof. unfold apply_effects. apply fold_left_app. Qed.

Lemma apply_yields {Y} (ys : list Y) (store : Store) :
  apply_effects (map Yield ys) store = store.
Proof. induction ys as [| y ys IH]; [reflexivity | exact IH]. Qed.

Lemma yields_app {Y} (a b : list (effect Y)) :
  yields (a ++ b) = yields a ++ yields b.
Proof.
  induction a as [| e a IH]; [reflexivity |].
  destruct e; cbn; rewrite ?IH; reflexivity.
Qed.

Lemma yields_map {Y} (ys : list Y) : yields (map Yield ys) = ys.
Proof. induction ys as [| y ys IH]; cbn; congruence. Qed.

Lemma apply_relay (effects : list (effect progress)) : forall store : Store,
  apply_effects (concat (map relay effects)) store = apply_effects effects store.
Proof.
  induction effects as [| e rest IH]; intros store; [reflexivity |].
  cbn [map concat]. rewrite apply_effects_app, IH.
  destruct e; cbn [relay]; [rewrite apply_yields |..]; reflexivity.
Qed.

(** Saving a pair puts the two messages at the end of the session's
    history and touches no other session. *)
Lemma save_pair (store : Store) key m1 m2 :
  let store' :=
    apply_effects
      [EnsureSession key; Append key m1; Append key m2 : effect progress] store in
  store' !! key = Some (history_of store key ++ [m1; m2])
  /\ (forall k, k <> key -> store' !! k = store !! k).
Proof.
  cbn. unfold history_of. split.
  - rewrite !lookup_alter_eq.
    destruct (store !! key) as [h |] eqn:Hh; cbn.
    + rewrite Hh. cbn. rewrite <- app_assoc. reflexivity.
    + rewrite lookup_insert_eq. reflexivity.
  - intros k Hk. rewrite !lookup_alter_ne by congruence.
    destruct (store !! key); [reflexivity |].
    rewrite lookup_insert_ne by congruence. reflexivity.
Qed.

End StoreProperties.

(** ** The routes *)

Section RouteProperties.
Import Chat.

Variable graph : CompiledGraph.

Lemma stream_with_status_unfold message sid uid (store : Store) :
  stream_with_status graph message sid uid store
  = (let out := snd (consume loop_start (stream_items graph message sid uid store)) in
     let text := accumulated_text graph message sid uid store in
     match stream_fault graph message sid uid store with
     | Some e => (map Yield out, Some e)
     | None =>
         (map Yield out
          ++ (if Py.truthy_str text then
                [ EnsureSession (session_key sid);
                  Append (session_key sid) (Message HumanMessage message);
                  Append (session_key sid) (Message AIMessage text) ]
              else [])
          ++ [Yield (final_tuple text (resolved_tool graph message sid uid store))],
          None)
     end).
Proof.
  unfold stream_with_status, accumulated_text, resolved_tool, stream_items,
    stream_fault.
  destruct (astream graph (stream_initial_state message sid uid store))
    as [items fault].
  cbn [fst snd]. destruct (consume loop_start items) as [st out].
  cbn [fst snd]. destruct fault; reflexivity.
Qed.

(** One streaming run and the store. *)
Lemma run_stream_spec message sid uid (store : Store) :
  let key := session_key sid in
  let text := accumulated_text graph message sid uid store in
  if productive graph message sid uid store then
    run_stream graph message sid uid store !! key
    = Some (history_of store key
            ++ [Message HumanMessage message; Message AIMessage text])
    /\ (forall k, k <> key ->
        run_stream graph message sid uid store !! k = store !! k)
  else run_stream graph message sid uid store = store.
Proof.
  intros key text. unfold productive, run_stream.
  rewrite stream_with_status_unfold. cbn zeta. fold text.
  destruct (stream_fault graph message sid uid store) as [e |]; cbn [fst].
  - apply apply_yields.
  - destruct (Py.truthy_str text) eqn:Ht.
    + rewrite apply_effects_app, apply_yields, apply_effects_app.
      set (save := [EnsureSession _; _; _]).
      change (apply_effects [Yield _] (apply_effects save store))
        with (apply_effects save store).
      apply save_pair.
    + rewrite apply_effects_app, apply_yields. reflexivity.
Qed.

Lemma run_stream_length message sid uid (store : Store) :
  length (history_of (run_stream graph message sid uid store) (session_key sid))
  = length (history_of store (session_key sid))
    + 2 * (if productive graph message sid uid store then 1 else 0).
Proof.
  pose proof (run_stream_spec message sid uid store) as H. cbn zeta in H.
  destruct (productive graph message sid uid store).
  - destruct H as [H _]. unfold history_of at 1. rewrite H. cbn.
    rewrite length_app. cbn. lia.
  - rewrite H. lia.
Qed.

Lemma chat_keeps_store request (store : Store) :
  snd (chat graph request store) = store.
Proof.
  unfold chat.
  match goal with
  | |- snd (match ?attempt with _ => _ end) = _ => destruct attempt
  end; reflexivity.
Qed.

Lemma run_streams_length messages sid uid : forall store : Store,
  length (history_of (run_streams graph messages sid uid store) (session_key sid))
  = length (history_of store (session_key sid))
    + 2 * productive_runs graph messages sid uid store.
Proof.
  induction messages as [| message rest IH]; intros store;
    cbn [run_streams productive_runs].
  - lia.
  - rewrite IH, run_stream_length.
    destruct (productive graph message sid uid store); lia.
Qed.

(** C2 (as amended): after N completed streaming runs of one session, the
    history stored under its key ([session_id], or "default" when that is
    empty) has grown by exactly 2M messages, M being the number of those
    runs that accumulated a non-empty response text, so by 2N when all of
    them did.  Each such run appends the user message followed by the
    assistant message holding the accumulated text; a run that accumulated
    nothing, or that was ended by an exception, leaves the store as it was;
    no run touches another session, and [chat] changes nothing. *)
Theorem history_grows_by_pairs messages sid uid (store : Store) :
  let key := session_key sid in
  length (history_of (run_streams graph messages sid uid store) key)
  = length (history_of store key)
    + 2 * productive_runs graph messages sid uid store
  /\ (productive_runs graph messages sid uid store = length messages ->
      length (history_of (run_streams graph messages sid uid store) key)
      = length (history_of store key) + 2 * length messages)
  /\ (forall message,
        productive graph message sid uid store = true ->
        history_of (run_stream graph message sid uid store) key
        = history_of store key
          ++ [ Message HumanMessage message;
               Message AIMessage (accumulated_text graph message sid uid store) ])
  /\ (forall message,
        productive graph message sid uid store = false ->
        run_stream graph message sid uid store = store)
  /\ (forall message k,
        k <> key -> run_stream graph message sid uid store !! k = store !! k)
  /\ (forall request, snd (chat graph request store) = store).
Proof.
  intros key. split; [apply run_streams_length |].
  split; [intros <-; apply run_streams_length |].
  split; [| split; [| split]].
  - intros message Hp. pose proof (run_stream_spec message sid uid store) as H.
    cbn zeta in H. rewrite Hp in H. destruct H as [H _].
    unfold history_of at 1. fold key in H. rewrite H. reflexivity.
  - intros message Hp. pose proof (run_stream_spec message sid uid store) as H.
    cbn zeta in H. rewrite Hp in H. exact H.
  - intros message k Hk.
    pose proof (run_stream_spec message sid uid store) as H. cbn zeta in H.
    destruct (productive graph message sid uid store).
    + destruct H as [_ H]. apply H. exact Hk.
    + rewrite H. reflexivity.
  - intros request. apply chat_keeps_store.
Qed.

(** C4: for every item of the graph's stream, the loop yields a token
    exactly when the item is a message chunk that comes from the response
    node with non-empty content, and then the token is that content and is
    appended to the accumulated text; any message attributed to another
    node is dropped and leaves the loop's variables untouched.  In the run
    where the router emits one fragment and the responder emits "안" and
    "녕", the client gets exactly two token events and the response event
    carries "안녕". *)
Theorem tokens_come_from_response (st : loop) (item : stream_item) :
  (forall t, In (token_tuple t) (snd (on_item st item)) <-> user_token item = Some t)
  /\ (forall t, user_token item = Some t ->
        on_item st item
        = ({| final_response := final_response st +:+ t;
              final_tool_name := final_tool_name st;
              current_node := current_node st |}, [token_tuple t])
        /\ events_of (token_tuple t)
           = [ {| Schemas.type := Schemas.token; Schemas.ev_content := Some t;
                  Schemas.ev_tool_used := None; Schemas.ev_error := None |} ])
  /\ (user_token item = None ->
        final_response (fst (on_item st item)) = final_response st)
  /\ (forall msg meta,
        langgraph_node meta <> Some "response" ->
        on_item st (Messages msg meta) = (st, []))
  /\ (forall msg meta,
        cls msg = AIMessageChunk ->
        (user_token (Messages msg meta) = Some (content msg)
         <-> langgraph_node meta = Some "response" /\ content msg <> ""))
  /\ (let events := fst (chat_stream Examples.greeting_graph Examples.hello
                           Examples.no_sessions) in
      map Schemas.ev_content
        (filter (fun e => Schemas.is_type Schemas.token e = true) events)
      = [Some "안"; Some "녕"]
      /\ filter (fun e => Schemas.is_type Schemas.response e = true) events
         = [response_event "안녕" None]
      /\ accumulated_text Examples.greeting_graph "안녕" "s1" None
           Examples.no_sessions = "안녕").
Proof.
  split; [| split; [| split; [| split; [| split]]]].
  - intros t. destruct item as [event | msg meta | mode]; cbn [on_item].
    + cbn [user_token]. split; [| discriminate].
      intros Hin. destruct (on_updates_spec event st) as (_ & _ & Hno).
      rewrite List.Forall_forall in Hno. apply Hno in Hin. discriminate.
    + pose proof (on_message_spec st msg meta) as H.
      destruct (user_token (Messages msg meta)) as [t' |].
      * destruct H as (-> & _ & _). cbn. split.
        -- intros [[= ->] | []]. reflexivity.
        -- intros [= ->]. left. reflexivity.
      * rewrite H. cbn. split; [intros [] | discriminate].
    + cbn. split; [intros [] | discriminate].
  - intros t Ht. destruct item as [event | msg meta | mode]; try discriminate.
    cbn [on_item]. pose proof (on_message_spec st msg meta) as H.
    rewrite Ht in H. destruct H as (Hstep & Htruthy & _).
    split; [exact Hstep |].
    unfold events_of. cbn. rewrite Htruthy. reflexivity.
  - intros Hnone. destruct item as [event | msg meta | mode]; cbn [on_item].
    + apply on_updates_spec.
    + pose proof (on_message_spec st msg meta) as H. rewrite Hnone in H.
      rewrite H. reflexivity.
    + reflexivity.
  - intros msg meta Hnode. cbn [on_item]. unfold on_message.
    destruct (langgraph_node meta) as [n |]; cbn [default from_option id].
    + destruct (String.eqb_spec n "response") as [-> | _]; [congruence |].
      reflexivity.
    + reflexivity.
  - intros msg meta Hcls. unfold user_token. rewrite Hcls.
    destruct (langgraph_node meta) as [n |].
    + destruct (String.eqb_spec n "response") as [-> | Hn]; cbn [andb].
      * unfold Py.truthy_str.
        destruct (String.eqb_spec (content msg) "") as [He | He]; cbn [negb].
        -- split; [discriminate | intros [_ Hc]; congruence].
        -- split; [intros _; split; [reflexivity | exact He] | reflexivity].
      * split; [discriminate | intros [[= Hc] _]; congruence].
    + split; [discriminate | intros [[=] _]].
  - vm_compute. repeat split; reflexivity.
Qed.

Lemma generate_unfold request (store : Store) :
  let message := Schemas.message request in
  let sid := Schemas.session_id request in
  let uid := Schemas.user_id request in
  let text := accumulated_text graph message sid uid store in
  exists prefix,
    Forall (fun e => is_progress e = true) prefix
    /\ generate graph request store
       = match stream_fault graph message sid uid store with
         | Some e =>
             map Yield prefix
             ++ [Yield (error_event e); Yield (Schemas.event Schemas.done)]
         | None =>
             if Py.truthy_str text then
               map Yield prefix
               ++ [ EnsureSession (session_key sid);
                    Append (session_key sid) (Message HumanMessage message);
                    Append (session_key sid) (Message AIMessage text);
                    Yield (response_event text
                             (resolved_tool graph message sid uid store));
                    Yield (Schemas.event Schemas.done) ]
             else map Yield prefix ++ [Yield (Schemas.event Schemas.done)]
         end.
Proof.
  intros message sid uid text.
  destruct (relay_progress
              (snd (consume loop_start (stream_items graph message sid uid store)))
              (consume_progress _ _)) as (prefix & Hrelay & Hall).
  exists prefix. split; [exact Hall |].
  unfold generate. fold message sid uid.
  rewrite stream_with_status_unfold. cbn zeta. fold text.
  destruct (stream_fault graph message sid uid store) as [e |].
  - rewrite Hrelay. reflexivity.
  - rewrite !map_app, !concat_app, Hrelay.
    unfold Py.truthy_str in *.
    destruct (negb (String.eqb text "")) eqn:Ht.
    + cbn. unfold events_of. cbn. unfold Py.truthy_str. rewrite Ht. cbn.
      rewrite <- !app_assoc. reflexivity.
    + cbn. unfold events_of. cbn. unfold Py.truthy_str. rewrite Ht. cbn.
      rewrite <- !app_assoc. reflexivity.
Qed.

(** C5 (as amended): a streaming run that completes without fault and has
    accumulated a non-empty text sends exactly one response event; it
    carries the whole accumulated text and the resolved tool name (or
    none), comes after every status and token event and after the pair has
    been appended to the session history, and is directly followed by the
    done event, which ends the stream.  When the accumulated text is empty
    no response event is sent: the status events are followed by done. *)
Theorem response_event_is_last request (store : Store) :
  let message := Schemas.message request in
  let sid := Schemas.session_id request in
  let uid := Schemas.user_id request in
  let text := accumulated_text graph message sid uid store in
  stream_fault graph message sid uid store = None ->
  exists prefix,
    Forall (fun e => is_progress e = true) prefix
    /\ (text <> "" ->
        generate graph request store
        = map Yield prefix
          ++ [ EnsureSession (session_key sid);
               Append (session_key sid) (Message HumanMessage message);
               Append (session_key sid) (Message AIMessage text);
               Yield (response_event text (resolved_tool graph message sid uid store));
               Yield (Schemas.event Schemas.done) ]
        /\ fst (chat_stream graph request store)
           = prefix
             ++ [ response_event text (resolved_tool graph message sid uid store);
                  Schemas.event Schemas.done ])
    /\ (text = "" ->
        generate graph request store
        = map Yield prefix ++ [Yield (Schemas.event Schemas.done)]
        /\ fst (chat_stream graph request store)
           = prefix ++ [Schemas.event Schemas.done]).
Proof.
  intros message sid uid text Hfault.
  destruct (generate_unfold request store) as (prefix & Hall & Hgen).
  cbn zeta in Hgen. fold message sid uid text in Hgen. rewrite Hfault in Hgen.
  exists prefix. split; [exact Hall |].
  unfold chat_stream. cbn [fst]. unfold Py.truthy_str in Hgen.
  split; intros Htext.
  - destruct (String.eqb_spec text "") as [He | _]; [congruence |].
    cbn [negb] in Hgen. rewrite Hgen. split; [reflexivity |].
    rewrite yields_app, yields_map. reflexivity.
  - destruct (String.eqb_spec text "") as [_ | Hne]; [| congruence].
    cbn [negb] in Hgen. rewrite Hgen. split; [reflexivity |].
    rewrite yields_app, yields_map. reflexivity.
Qed.

Lemma progress_types (prefix : list Schemas.StreamEvent) :
  Forall (fun e => is_progress e = true) prefix ->
  Forall (fun e => Schemas.type e = Schemas.thinking
                   \/ Schemas.type e = Schemas.token) prefix.
Proof.
  intros Hall. eapply Forall_impl; [exact Hall |].
  intros e. unfold is_progress, Schemas.is_type.
  destruct (Schemas.type e); cbn; intros H; try discriminate; auto.
Qed.

Lemma progress_not_other (prefix : list Schemas.StreamEvent) :
  Forall (fun e => is_progress e = true) prefix ->
  Forall (fun e => Schemas.type e <> Schemas.done
                   /\ Schemas.type e <> Schemas.error
                   /\ Schemas.type e <> Schemas.response) prefix.
Proof.
  intros Hall. eapply Forall_impl; [exact Hall |].
  intros e. unfold is_progress, Schemas.is_type.
  destruct (Schemas.type e); cbn; intros H; try discriminate;
    repeat split; discriminate.
Qed.

(** C6: the events of every stream end with a done event and contain no
    other one, whether the run succeeded or not.  When the graph's stream
    raises, what follows the status and token events already sent is
    exactly one error event, whose [error] field is the exception's message
    and whose other fields are unset, and then done; no response event is
    sent at all and the store is left as it was.  When the stream does not
    raise, no error event is sent. *)
Theorem stream_ends_with_one_done request (store : Store) :
  let events := fst (chat_stream graph request store) in
  let fault :=
    stream_fault graph (Schemas.message request) (Schemas.session_id request)
      (Schemas.user_id request) store in
  let done_event :=
    {| Schemas.type := Schemas.done; Schemas.ev_content := None;
       Schemas.ev_tool_used := None; Schemas.ev_error := None |} in
  (exists body,
     events = body ++ [done_event]
     /\ Forall (fun e => Schemas.type e <> Schemas.done) body)
  /\ (forall e,
        fault = Some e ->
        exists prefix,
          events
          = prefix
            ++ [ {| Schemas.type := Schemas.error; Schemas.ev_content := None;
                    Schemas.ev_tool_used := None; Schemas.ev_error := Some e |};
                 done_event ]
          /\ Forall (fun ev => Schemas.type ev = Schemas.thinking
                               \/ Schemas.type ev = Schemas.token) prefix
          /\ Forall (fun ev => is_progress ev = true) prefix
          /\ Forall (fun ev => Schemas.type ev <> Schemas.response) events
          /\ (forall ev, In ev events -> Schemas.type ev = Schemas.error ->
                Schemas.ev_error ev = Some e)
          /\ snd (chat_stream graph request store) = store)
  /\ (fault = None ->
      Forall (fun ev => Schemas.type ev <> Schemas.error) events).
Proof.
  intros events fault done_event. subst events fault done_event.
  destruct (generate_unfold request store) as (prefix & Hall & Hgen).
  cbn zeta in Hgen. unfold chat_stream. cbn [fst snd].
  pose proof (progress_not_other prefix Hall) as Hother.
  destruct (stream_fault graph (Schemas.message request)
              (Schemas.session_id request) (Schemas.user_id request) store)
    as [e |] eqn:Hfault.
  - rewrite Hgen, yields_app, yields_map. cbn [yields].
    split; [| split; [| discriminate]].
    + exists (prefix ++ [error_event e]). split.
      * rewrite <- app_assoc. reflexivity.
      * apply Forall_app. split.
        -- eapply Forall_impl; [exact Hother |]. cbn. tauto.
        -- repeat constructor. discriminate.
    + intros e' [= <-]. exists prefix.
      split; [reflexivity |].
      split; [apply progress_types; exact Hall |].
      split; [exact Hall |]. split; [| split].
      * apply Forall_app. split.
        -- eapply Forall_impl; [exact Hother |]. cbn. tauto.
        -- repeat constructor; discriminate.
      * intros ev Hin Hty. apply in_app_iff in Hin as [Hin | Hin].
        -- rewrite List.Forall_forall in Hother.
           destruct (Hother ev Hin) as (_ & Hne & _). contradiction.
        -- destruct Hin as [<- | [<- | []]]; [reflexivity | discriminate Hty].
      * rewrite apply_effects_app, apply_yields. reflexivity.
  - destruct (Py.truthy_str _) eqn:Ht;
      rewrite Hgen, yields_app, yields_map; cbn [yields].
    + split; [| split; [discriminate |]].
      * exists (prefix ++ [response_event
                   (accumulated_text graph (Schemas.message request)
                      (Schemas.session_id request) (Schemas.user_id request) store)
                   (resolved_tool graph (Schemas.message request)
                      (Schemas.session_id request) (Schemas.user_id request) store)]).
        split; [rewrite <- app_assoc; reflexivity |].
        apply Forall_app. split.
        -- eapply Forall_impl; [exact Hother |]. cbn. tauto.
        -- repeat constructor. discriminate.
      * intros _. apply Forall_app. split.
        -- eapply Forall_impl; [exact Hother |]. cbn. tauto.
        -- repeat constructor; discriminate.
    + split; [| split; [discriminate |]].
      * exists prefix. split; [reflexivity |].
        eapply Forall_impl; [exact Hother |]. cbn. tauto.
      * intros _. apply Forall_app. split.
        -- eapply Forall_impl; [exact Hother |]. cbn. tauto.
        -- repeat constructor; discriminate.
Qed.

(** C10: the initial state of [chat] holds the new user message and nothing
    of the session's history; [chat] leaves every session's history as it
    was and its answer does not depend on the store; and a streaming run
    changes the store only when it completes (with some accumulated
    text). *)
Theorem chat_ignores_store request (store : Store) :
  messages (chat_initial_state request)
  = [Message HumanMessage (Schemas.message request)]
  /\ snd (chat graph request store) = store
  /\ (forall sid, snd (chat graph request store) !! sid = store !! sid)
  /\ (forall store' : Store,
        fst (chat graph request store') = fst (chat graph request store))
  /\ (snd (chat_stream graph request store) <> store ->
      stream_fault graph (Schemas.message request) (Schemas.session_id request)
        (Schemas.user_id request) store = None
      /\ accumulated_text graph (Schemas.message request)
           (Schemas.session_id request) (Schemas.user_id request) store <> "").
Proof.
  split; [reflexivity |].
  split; [apply chat_keeps_store |].
  split; [intros sid; rewrite chat_keeps_store; reflexivity |].
  split.
  - intros store'. unfold chat.
    match goal with
    | |- fst (match ?attempt with _ => _ end) = _ => destruct attempt
    end; reflexivity.
  - intros Hchanged.
    assert (Hrun : snd (chat_stream graph request store)
                   = run_stream graph (Schemas.message request)
                       (Schemas.session_id request) (Schemas.user_id request) store).
    { unfold chat_stream, run_stream, generate. cbn [snd].
      destruct (stream_with_status graph (Schemas.message request)
                  (Schemas.session_id request) (Schemas.user_id request) store)
        as [effects [e |]]; cbn [fst];
        rewrite apply_effects_app, apply_relay; reflexivity. }
    rewrite Hrun in Hchanged.
    pose proof (run_stream_spec (Schemas.message request)
                  (Schemas.session_id request) (Schemas.user_id request) store) as H.
    cbn zeta in H. unfold productive in H.
    destruct (stream_fault graph (Schemas.message request)
                (Schemas.session_id request) (Schemas.user_id request) store);
      [contradiction |].
    split; [reflexivity |].
    intros Hempty. rewrite Hempty in H. cbn in H. contradiction.
Qed.

End RouteProperties.

(** ** Streaming against a single-shot run *)

Section Equivalence.
Import Chat.

Variables router_node rag_node tool_node : node.
Variable token_source : LumiState -> list string.

Lemma append_cons a s t : String a s +:+ t = String a (s +:+ t).
Proof. reflexivity. Qed.

Lemma append_empty_r s : s +:+ "" = s.
Proof. induction s as [| a s IH]; [reflexivity |]. rewrite append_cons, IH. reflexivity. Qed.

Lemma append_assoc s1 s2 s3 : (s1 +:+ s2) +:+ s3 = s1 +:+ (s2 +:+ s3).
Proof.
  induction s1 as [| a s1 IH]; [reflexivity |].
  rewrite !append_cons, IH. reflexivity.
Qed.

Lemma concat_cons f rest :
  String.concat "" (f :: rest) = f +:+ String.concat "" rest.
Proof.
  destruct rest as [| g rest]; cbn [String.concat].
  - symmetry. apply append_empty_r.
  - reflexivity.
Qed.

(** The messages of a node other than the responder leave the loop as it
    is and yield nothing. *)
Lemma consume_foreign n (ms : list message) : forall st,
  n <> "response" ->
  consume st (map (fun m => Messages m {| langgraph_node := Some n |}) ms)
  = (st, []).
Proof.
  intros st Hn. induction ms as [| m ms IH]; [reflexivity |].
  cbn [map consume on_item]. unfold on_message. cbn [langgraph_node default from_option id].
  destruct (String.eqb_spec n "response") as [-> | _]; [congruence |].
  cbn [negb]. rewrite IH. reflexivity.
Qed.

(** The chunks of the responder are accumulated in order; empty ones are
    skipped, which does not change the text. *)
Lemma consume_fragments (fragments : list string) : forall st,
  final_response
    (fst (consume st
            (map (fun m => Messages m {| langgraph_node := Some "response" |})
               (map (Message AIMessageChunk) fragments))))
  = final_response st +:+ String.concat "" fragments.
Proof.
  induction fragments as [| f rest IH]; intros st.
  - cbn. symmetry. apply append_empty_r.
  - cbn [map consume on_item]. unfold on_message.
    cbn [langgraph_node default from_option id String.eqb Ascii.eqb Bool.eqb negb cls content].
    rewrite concat_cons. unfold Py.truthy_str.
    destruct (String.eqb_spec f "") as [-> | Hf]; cbn [negb].
    + specialize (IH st).
      destruct (consume st _) as [st' out']. cbn [fst] in *. exact IH.
    + match goal with
      | |- context [consume ?st1 _] => specialize (IH st1)
      end.
      destruct (consume _ _) as [st' out']. cbn [fst final_response] in *.
      rewrite IH. apply append_assoc.
Qed.

Lemma consume_update_text st event :
  final_response (fst (consume st [Updates event])) = final_response st.
Proof.
  cbn [consume on_item]. destruct (on_updates_spec event st) as (H & _).
  destruct (on_updates st event) as [st' out]. exact H.
Qed.

(** The text accumulated over what one node contributes to the stream. *)
Lemma consume_node_items st n (r : NodeRun) :
  n <> "response" ->
  final_response (fst (consume st (node_items (n, r)))) = final_response st.
Proof.
  intros Hn. unfold node_items. cbn [fst snd]. rewrite consume_app.
  rewrite consume_foreign by exact Hn.
  pose proof (consume_update_text st [(n, output r)]) as H.
  destruct (consume st [Updates [(n, output r)]]) as [st' out]. exact H.
Qed.

Lemma consume_responder st st' :
  final_response
    (fst (consume st
            (node_items ("response", Nodes.response_node token_source st'))))
  = final_response st +:+ String.concat "" (token_source st').
Proof.
  unfold node_items. cbn [fst snd Nodes.response_node emitted output].
  rewrite consume_app.
  pose proof (consume_fragments (token_source st') st) as Hfrag.
  destruct (consume st (map _ (map _ (token_source st')))) as [st1 out1].
  cbn [fst] in Hfrag.
  match goal with
  | |- context [consume st1 [Updates ?ev]] =>
      pose proof (consume_update_text st1 ev) as Hupd;
      destruct (consume st1 [Updates ev]) as [st2 out2]
  end.
  cbn [fst] in *. congruence.
Qed.

Lemma messages_grow (fn : node) st :
  length (messages st) <= length (messages (after_node fn st)).
Proof.
  unfold after_node, apply_output. destruct (output (fn st)) as [u |]; [| lia].
  unfold apply_update. cbn [messages]. destruct (u_messages u); [| lia].
  unfold add_messages. rewrite length_app. lia.
Qed.

Lemma responder_appends st :
  messages (after_node (Nodes.response_node token_source) st)
  = messages st ++ [Message AIMessage (String.concat "" (token_source st))].
Proof. reflexivity. Qed.

Lemma final_text_completed (g : CompiledGraph) message sid uid (store : Store) :
  stream_fault g message sid uid store = None ->
  final_text g message sid uid store
  = Some (accumulated_text g message sid uid store).
Proof.
  intros Hfault. unfold final_text. rewrite stream_with_status_unfold.
  cbn zeta. rewrite Hfault. cbn [fst].
  rewrite !yields_app, yields_map, app_assoc. cbn [yields].
  rewrite last_snoc. reflexivity.
Qed.

Lemma lumi_stream st0 i :
  intent (after_node router_node st0) = Some i ->
  let g := create_lumi_graph router_node rag_node tool_node
             (Nodes.response_node token_source) in
  exists before_responder,
    ainvoke g st0
    = Py.Ok (after_node (Nodes.response_node token_source) before_responder)
    /\ snd (astream g st0) = None
    /\ final_response (fst (consume loop_start (fst (astream g st0))))
       = String.concat "" (token_source before_responder)
    /\ length (messages st0) <= length (messages before_responder).
Proof.
  intros Hi g.
  pose proof (run_resolved router_node rag_node tool_node
                (Nodes.response_node token_source) st0 i Hi) as Hrun.
  cbn zeta in Hrun.
  unfold g, create_lumi_graph, compile. cbn [ainvoke astream].
  unfold run_ainvoke, run_astream.
  change (builder (create_lumi_graph router_node rag_node tool_node
                     (Nodes.response_node token_source)))
    with (add_edge "response" END
           (add_edge "tool" "response"
              (add_edge "rag" "response"
                 (add_conditional_edges "router" route_by_intent
                    [("rag", "rag"); ("tool", "tool"); ("response", "response")]
                    (add_edge START "router"
                       (add_node "response" (Nodes.response_node token_source)
                          (add_node "tool" tool_node
                             (add_node "rag" rag_node
                                (add_node "router" router_node new_builder)))))))))
    in Hrun.
  rewrite Hrun. clear Hrun.
  destruct i.
  - exists (after_node router_node st0).
    split; [reflexivity |]. split; [reflexivity |]. split.
    + cbn [fst map concat]. rewrite app_nil_r, consume_app.
      pose proof (consume_node_items loop_start "router" (router_node st0)) as H1.
      destruct (consume loop_start (node_items ("router", router_node st0)))
        as [st1 out1].
      pose proof (consume_responder st1 (after_node router_node st0)) as H2.
      destruct (consume st1 _) as [st2 out2]. cbn [fst] in *.
      rewrite H2, H1 by discriminate. reflexivity.
    + apply messages_grow.
  - exists (after_node rag_node (after_node router_node st0)).
    split; [reflexivity |]. split; [reflexivity |]. split.
    + cbn [fst map concat]. rewrite app_nil_r, consume_app.
      pose proof (consume_node_items loop_start "router" (router_node st0)) as H1.
      destruct (consume loop_start (node_items ("router", router_node st0)))
        as [st1 out1].
      rewrite consume_app.
      pose proof (consume_node_items st1 "rag"
                    (rag_node (after_node router_node st0))) as H2.
      destruct (consume st1 (node_items ("rag", _))) as [st2 out2].
      pose proof (consume_responder st2
                    (after_node rag_node (after_node router_node st0))) as H3.
      destruct (consume st2 _) as [st3 out3]. cbn [fst] in *.
      rewrite H3, H2, H1 by discriminate. reflexivity.
    + etransitivity; [apply (messages_grow router_node) |].
      apply messages_grow.
  - exists (after_node tool_node (after_node router_node st0)).
    split; [reflexivity |]. split; [reflexivity |]. split.
    + cbn [fst map concat]. rewrite app_nil_r, consume_app.
      pose proof (consume_node_items loop_start "router" (router_node st0)) as H1.
      destruct (consume loop_start (node_items ("router", router_node st0)))
        as [st1 out1].
      rewrite consume_app.
      pose proof (consume_node_items st1 "tool"
                    (tool_node (after_node router_node st0))) as H2.
      destruct (consume st1 (node_items ("tool", _))) as [st2 out2].
      pose proof (consume_responder st2
                    (after_node tool_node (after_node router_node st0))) as H3.
      destruct (consume st2 _) as [st3 out3]. cbn [fst] in *.
      rewrite H3, H2, H1 by discriminate. reflexivity.
    + etransitivity; [apply (messages_grow router_node) |].
      apply messages_grow.
Qed.

(** C7: with the responder streaming the fragments of the token source and
    the router resolving the intent, the text of the final tuple of
    [stream_with_status] is the content of the last message of the state
    that [ainvoke] returns for the same initial state; and when the request
    given to [chat] leads to that same initial state, it is the message of
    its response. *)
Theorem streaming_matches_invoke message sid uid (store : Store) (i : Intent) :
  let g := create_lumi_graph router_node rag_node tool_node
             (Nodes.response_node token_source) in
  let st0 := stream_initial_state message sid uid store in
  intent (after_node router_node st0) = Some i ->
  exists final_state answer,
    ainvoke g st0 = Py.Ok final_state
    /\ last (messages final_state) = Some answer
    /\ final_text g message sid uid store = Some (content answer)
    /\ (forall request,
          chat_initial_state request = st0 ->
          fst (chat g request store)
          = inl {| Schemas.reply := content answer;
                   Schemas.tool_used := tool_name final_state;
                   Schemas.cached := false |}).
Proof.
  intros g st0 Hi.
  destruct (lumi_stream st0 i Hi) as (st2 & Hinvoke & Hfault & Htext & Hlen).
  fold g in Hinvoke, Hfault, Htext.
  exists (after_node (Nodes.response_node token_source) st2).
  exists (Message AIMessage (String.concat "" (token_source st2))).
  split; [exact Hinvoke |].
  split; [rewrite responder_appends; apply last_snoc |].
  split.
  - rewrite final_text_completed by exact Hfault.
    unfold accumulated_text, stream_items. fold st0. rewrite Htext. reflexivity.
  - intros request Hsame. unfold chat. rewrite Hsame, Hinvoke.
    cbn [mbind result_bind Py.bind]. rewrite responder_appends, last_snoc.
    assert (Hge : (length (messages st2 ++
                     [Message AIMessage (String.concat "" (token_source st2))])
                   <? 2)%nat = false).
    { apply Nat.ltb_ge. rewrite length_app. cbn [length].
      assert (1 <= length (messages st0)).
      { unfold st0, stream_initial_state. cbn [messages].
        rewrite length_app. cbn. lia. }
      lia. }
    rewrite Hge. reflexivity.
Qed.

End Equivalence.

(** ** The properties at concrete inputs *)

Section Instances.
Import Py.
Import Chat.
Import Examples.

(** A router resolving to rag makes the run go through the rag node. *)
Lemma node_sequence_by_intent_witness :
  intent (after_node (router_to rag) (initial "s1")) = Some rag
  /\ executed
       (builder (create_lumi_graph (router_to rag) retrieve run_tool (fixed_reply "ok")))
       (initial "s1")
     = ["router"; "rag"; "response"].
Proof.
  split; [reflexivity |].
  apply (node_sequence_by_intent (router_to rag) retrieve run_tool
           (fixed_reply "ok") (initial "s1") rag).
  reflexivity.
Defined.

(** A completed run whose responder does not stream stores nothing: the
    history has not grown by two messages. *)
Lemma quiet_run_stores_nothing :
  stream_fault quiet_graph "안녕" "s1" None no_sessions = None
  /\ length (history_of (run_streams quiet_graph ["안녕"] "s1" None no_sessions) "s1")
     = length (history_of no_sessions "s1")
  /\ length (history_of (run_streams quiet_graph ["안녕"] "s1" None no_sessions) "s1")
     <> length (history_of no_sessions "s1") + 2 * 1.
Proof.
  split; [reflexivity |]. split; [reflexivity |].
  vm_compute. discriminate.
Qed.

Lemma history_grows_by_pairs_witness :
  productive greeting_graph "안녕" "s1" None no_sessions = true
  /\ history_of (run_stream greeting_graph "안녕" "s1" None no_sessions) "s1"
     = [Message HumanMessage "안녕"; Message AIMessage "안녕"].
Proof.
  split; [reflexivity |].
  destruct (history_grows_by_pairs greeting_graph ["안녕"] "s1" None no_sessions)
    as (_ & _ & Hpair & _).
  apply (Hpair "안녕"). reflexivity.
Defined.

(** The error text for an unknown tool is not the English one. *)
Lemma unknown_tool_text_differs :
  ~ In "unknown_tool" Executor.dispatch_table
  /\ Executor.execute storage_empty letters_down 0 "unknown_tool" [] "s1" None
     <> [("success", PBool false); ("error", PStr "unknown tool: unknown_tool")].
Proof.
  split.
  - cbn. intros [H | [H | [H | [H | []]]]]; discriminate.
  - vm_compute. intros H. discriminate.
Qed.

Lemma execute_never_raises_witness :
  ~ In "unknown_tool" Executor.dispatch_table
  /\ Executor.execute storage_empty letters_down 0 "unknown_tool" [] "s1" None
     = [("success", PBool false); ("error", PStr "알 수 없는 Tool: unknown_tool")]
  /\ Executor.execute storage_empty letters_down 0 "send_fan_letter"
       [("message", PStr "hi")] "s1" None
     = [("success", PBool false); ("error", PStr "insert failed")].
Proof.
  assert (Hnot : ~ In "unknown_tool" Executor.dispatch_table).
  { cbn. intros [H | [H | [H | [H | []]]]]; discriminate. }
  split; [exact Hnot |]. split.
  - destruct (execute_never_raises storage_empty letters_down 0 "unknown_tool"
                [] "s1" None) as (Hunknown & _).
    apply Hunknown. exact Hnot.
  - destruct (execute_never_raises storage_empty letters_down 0 "send_fan_letter"
                [("message", PStr "hi")] "s1" None) as (_ & _ & _ & Hraise).
    apply (Hraise "insert failed"); reflexivity.
Defined.

Lemma tokens_come_from_response_witness :
  user_token (Messages (Message AIMessageChunk "안")
                {| langgraph_node := Some "response" |}) = Some "안"
  /\ on_item loop_start
       (Messages (Message AIMessageChunk "안") {| langgraph_node := Some "response" |})
     = ({| final_response := "안"; final_tool_name := None; current_node := None |},
        [token_tuple "안"]).
Proof.
  split; [reflexivity |].
  destruct (tokens_come_from_response loop_start
              (Messages (Message AIMessageChunk "안")
                 {| langgraph_node := Some "response" |})) as (_ & Hstep & _).
  apply (Hstep "안" eq_refl).
Defined.

(** A completed run whose responder does not stream sends no response
    event at all. *)
Lemma quiet_run_sends_no_response :
  stream_fault quiet_graph "안녕" "s1" None no_sessions = None
  /\ filter (fun e => Schemas.is_type Schemas.response e = true)
       (fst (chat_stream quiet_graph hello no_sessions)) = []
  /\ length (filter (fun e => Schemas.is_type Schemas.response e = true)
               (fst (chat_stream quiet_graph hello no_sessions))) <> 1.
Proof.
  split; [reflexivity |]. split; [reflexivity |].
  vm_compute. discriminate.
Qed.

Lemma response_event_is_last_witness :
  stream_fault greeting_graph "안녕" "s1" None no_sessions = None
  /\ exists prefix,
       Forall (fun e => is_progress e = true) prefix
       /\ fst (chat_stream greeting_graph hello no_sessions)
          = prefix ++ [response_event "안녕" None; Schemas.event Schemas.done].
Proof.
  split; [reflexivity |].
  destruct (response_event_is_last greeting_graph hello no_sessions eq_refl)
    as (prefix & Hall & Hsome & _).
  exists prefix. split; [exact Hall |].
  apply Hsome. discriminate.
Defined.

Lemma stream_ends_with_one_done_witness :
  stream_fault unrouted_graph "안녕" "s1" None no_sessions
  = Some "routing error: intent is unset"
  /\ fst (chat_stream unrouted_graph hello no_sessions)
     = [ {| Schemas.type := Schemas.error; Schemas.ev_content := None;
            Schemas.ev_tool_used := None;
            Schemas.ev_error := Some "routing error: intent is unset" |};
         {| Schemas.type := Schemas.done; Schemas.ev_content := None;
            Schemas.ev_tool_used := None; Schemas.ev_error := None |} ]
  /\ stream_fault Samples.interrupted_graph "안녕" "s1" None no_sessions
     = Some "model unavailable"
  /\ exists prefix,
       fst (chat_stream Samples.interrupted_graph hello no_sessions)
       = prefix
         ++ [ {| Schemas.type := Schemas.error; Schemas.ev_content := None;
                 Schemas.ev_tool_used := None;
                 Schemas.ev_error := Some "model unavailable" |};
              {| Schemas.type := Schemas.done; Schemas.ev_content := None;
                 Schemas.ev_tool_used := None; Schemas.ev_error := None |} ]
       /\ map Schemas.type prefix = [Schemas.thinking; Schemas.token]
       /\ Forall (fun e => Schemas.type e <> Schemas.response)
            (fst (chat_stream Samples.interrupted_graph hello no_sessions))
       /\ snd (chat_stream Samples.interrupted_graph hello no_sessions)
          = no_sessions.
Proof.
  split; [reflexivity |]. split.
  - destruct (stream_ends_with_one_done unrouted_graph hello no_sessions)
      as (_ & Hfault & _).
    destruct (Hfault "routing error: intent is unset" eq_refl)
      as (prefix & Hevents & _).
    rewrite Hevents. vm_compute in Hevents.
    destruct prefix as [| ev prefix]; [reflexivity |].
    destruct prefix as [| ev' prefix]; [discriminate Hevents |].
    destruct prefix as [| ev'' prefix]; discriminate Hevents.
  - split; [reflexivity |].
    destruct (stream_ends_with_one_done Samples.interrupted_graph hello
                no_sessions) as (_ & Hfault & _).
    destruct (Hfault "model unavailable" eq_refl)
      as (prefix & Hevents & _ & _ & Hnone & _ & Hstore).
    exists prefix. split; [exact Hevents |].
    split; [| split; [exact Hnone | exact Hstore]].
    vm_compute in Hevents.
    destruct prefix as [| a [| b [| c rest]]]; try discriminate Hevents.
    + injection Hevents as <- <-. reflexivity.
    + destruct rest as [| d rest]; [discriminate Hevents |].
      destruct rest; discriminate Hevents.
Defined.

Lemma streaming_matches_invoke_witness :
  intent (after_node (router_to State.chat)
            (stream_initial_state "안녕" "s1" None no_sessions)) = Some State.chat
  /\ chat_initial_state hello = stream_initial_state "안녕" "s1" None no_sessions
  /\ exists final_state answer,
       ainvoke greeting_graph (stream_initial_state "안녕" "s1" None no_sessions)
       = Ok final_state
       /\ final_text greeting_graph "안녕" "s1" None no_sessions
          = Some (content answer)
       /\ fst (chat greeting_graph hello no_sessions)
          = inl {| Schemas.reply := content answer;
                   Schemas.tool_used := tool_name final_state;
                   Schemas.cached := false |}.
Proof.
  split; [reflexivity |]. split; [reflexivity |].
  destruct (streaming_matches_invoke (router_to State.chat) retrieve run_tool
              (fun _ => ["안"; "녕"]) "안녕" "s1" None no_sessions State.chat eq_refl)
    as (final_state & answer & Hinvoke & _ & Htext & Hchat).
  exists final_state, answer.
  split; [exact Hinvoke |]. split; [exact Htext |].
  apply Hchat. reflexivity.
Defined.

Lemma recommend_song_envelope_witness :
  lookup [] "mood" = None
  /\ exists s,
       Executor.execute storage_empty letters_down 1 "recommend_song" [] "s1" None
       = [ ("success", PBool true);
           ("data", PDict [("song", s); ("mood", PStr "happy")]);
           ("mock", PBool true) ]
       /\ In s (Executor.songs_of "happy").
Proof.
  split; [reflexivity |].
  destruct (recommend_song_envelope storage_empty letters_down 1 "s1" None)
    as (_ & Hdefault).
  apply (Hdefault []). reflexivity.
Defined.

Lemma empty_read_is_success_witness :
  storage_down (Schedule.build_query PNone PNone PNone) = Raise "connection refused"
  /\ Schedule.get_schedules storage_down PNone PNone PNone = []
  /\ Executor.execute storage_down letters_down 0 "get_schedule" [] "s1" None
     = [ ("success", PBool true);
         ("data", PDict [ ("schedules", PList []);
                          ("message", PStr "해당 기간에 예정된 스케줄이 없어요.") ]) ].
Proof.
  destruct (empty_read_is_success storage_down letters_down PNone PNone PNone
              [] 0 "s1" None) as (Hread & Htool).
  split; [reflexivity |].
  split; [apply (Hread "connection refused"); reflexivity |].
  destruct (Htool eq_refl) as (Henvelope & Hexecute).
  rewrite Hexecute. exact Henvelope.
Defined.

Lemma chat_ignores_store_witness :
  snd (chat_stream greeting_graph hello no_sessions) <> no_sessions
  /\ stream_fault greeting_graph "안녕" "s1" None no_sessions = None
  /\ snd (chat greeting_graph hello no_sessions) = no_sessions.
Proof.
  assert (Hchanged : snd (chat_stream greeting_graph hello no_sessions) <> no_sessions).
  { intros H. apply (f_equal (fun m : Store => m !! "s1")) in H.
    vm_compute in H. discriminate. }
  destruct (chat_ignores_store greeting_graph hello no_sessions)
    as (_ & Hkeeps & _ & _ & Honly).
  split; [exact Hchanged |].
  split; [apply (Honly Hchanged) | exact Hkeeps].
Defined.

End Instances.

(** ** Order and content of what a stream sends *)

Section MergeProperties.
Import Chat.
Import Merge.

Lemma tokens_app a b : tokens (a ++ b) = tokens a ++ tokens b.
Proof. apply omap_app. Qed.

Lemma statuses_app a b : statuses (a ++ b) = statuses a ++ statuses b.
Proof. apply omap_app. Qed.

Lemma tokens_of_statuses (out : list progress) :
  Forall (fun p => p_token p = None) out -> tokens out = [].
Proof.
  induction 1 as [| p out Hp _ IH]; [reflexivity |].
  unfold tokens in *. cbn. rewrite Hp. exact IH.
Qed.

(** The tokens of a run are the user tokens of the stream, in order, and
    the text is what they add up to. *)
Lemma consume_tokens items : forall st,
  tokens (snd (consume st items)) = omap user_token items
  /\ final_response (fst (consume st items))
     = final_response st +:+ String.concat "" (omap user_token items).
Proof.
  induction items as [| item rest IH]; intros st.
  - cbn. split; [reflexivity | symmetry; apply append_empty_r].
  - cbn [consume].
    assert (Hitem :
      tokens (snd (on_item st item)) = option_list (user_token item)
      /\ final_response (fst (on_item st item))
         = final_response st +:+ default "" (user_token item)).
    { destruct item as [event | msg meta | mode]; cbn [on_item].
      - destruct (on_updates_spec event st) as (Hf & _ & Hno).
        split; [apply tokens_of_statuses; exact Hno |].
        rewrite Hf. cbn. symmetry. apply append_empty_r.
      - pose proof (on_message_spec st msg meta) as H.
        destruct (user_token (Messages msg meta)) as [t |].
        + destruct H as (-> & _ & _). split; reflexivity.
        + rewrite H. split; [reflexivity |].
          cbn. symmetry. apply append_empty_r.
      - split; [reflexivity |]. cbn. symmetry. apply append_empty_r. }
    destruct Hitem as [Htok Htext].
    destruct (on_item st item) as [st1 out1]. cbn [fst snd] in Htok, Htext.
    destruct (IH st1) as [IHtok IHtext].
    destruct (consume st1 rest) as [st2 out2]. cbn [fst snd] in *.
    rewrite tokens_app, Htok, IHtok, IHtext, Htext. cbn [omap list_omap].
    destruct (user_token item) as [t |];
      cbn [option_list default from_option id app].
    + split; [reflexivity |]. rewrite concat_cons. apply append_assoc.
    + split; [reflexivity |]. rewrite append_empty_r. reflexivity.
Qed.

Lemma relay_yields (out : list progress) :
  yields (concat (map relay (map Yield out))) = concat (map events_of out).
Proof.
  induction out as [| p out IH]; [reflexivity |].
  cbn [map concat relay]. rewrite yields_app, yields_map, IH. reflexivity.
Qed.

(** The events of a stream: those of the tuples yielded, then the response
    event when there is a text, then done; or, when the graph's stream
    raised, the error event and done. *)
Lemma chat_stream_events (graph : CompiledGraph) request (store : Store) :
  let message := Schemas.message request in
  let sid := Schemas.session_id request in
  let uid := Schemas.user_id request in
  fst (chat_stream graph request store)
  = concat (map events_of
              (snd (consume loop_start (stream_items graph message sid uid store))))
    ++ match stream_fault graph message sid uid store with
       | Some e => [error_event e; Schemas.event Schemas.done]
       | None =>
           (if Py.truthy_str (accumulated_text graph message sid uid store)
            then [response_event (accumulated_text graph message sid uid store)
                    (resolved_tool graph message sid uid store)]
            else [])
           ++ [Schemas.event Schemas.done]
       end.
Proof.
  intros message sid uid. unfold chat_stream, generate. cbn [fst].
  fold message sid uid. rewrite stream_with_status_unfold. cbn zeta.
  destruct (stream_fault graph message sid uid store) as [e |].
  - rewrite yields_app, relay_yields. reflexivity.
  - rewrite !map_app, !concat_app, !yields_app, relay_yields.
    rewrite <- !app_assoc. f_equal.
    set (text := accumulated_text graph message sid uid store).
    unfold Py.truthy_str.
    destruct (negb (String.eqb text "")) eqn:Ht; cbn;
      unfold events_of; cbn; unfold Py.truthy_str; rewrite Ht; reflexivity.
Qed.

Lemma sent_app ty a b : sent ty (a ++ b) = sent ty a ++ sent ty b.
Proof. unfold sent. rewrite filter_app, map_app. reflexivity. Qed.

Lemma sent_progress (out : list progress) :
  Forall progress_tuple out ->
  sent Schemas.token (concat (map events_of out)) = map Some (tokens out)
  /\ sent Schemas.thinking (concat (map events_of out)) = map Some (statuses out).
Proof.
  induction 1 as [| p out Hp _ [IHt IHs]]; [split; reflexivity |].
  cbn [map concat]. rewrite !sent_app, IHt, IHs.
  destruct Hp as [label Hl | t Ht]; unfold events_of; cbn;
    rewrite ?Hl, ?Ht; split; reflexivity.
Qed.

Lemma sent_tail ty (fault : option Py.exn) text tool :
  ty = Schemas.token \/ ty = Schemas.thinking ->
  sent ty
    match fault with
    | Some e => [error_event e; Schemas.event Schemas.done]
    | None =>
        (if Py.truthy_str text then [response_event text tool] else [])
        ++ [Schemas.event Schemas.done]
    end = [].
Proof.
  intros [-> | ->]; destruct fault; [reflexivity | | reflexivity |];
    destruct (Py.truthy_str text); reflexivity.
Qed.

(** X1: whatever the graph streams and however the run ends, the token
    events the client receives are, in order, exactly the non-empty
    contents of the message chunks that came from the response node, and
    the accumulated text is their concatenation. *)
Theorem client_tokens_in_stream_order (graph : CompiledGraph) request
    (store : Store) :
  let items := stream_items graph (Schemas.message request)
                 (Schemas.session_id request) (Schemas.user_id request) store in
  sent Schemas.token (fst (chat_stream graph request store))
  = map Some (omap user_token items)
  /\ accumulated_text graph (Schemas.message request)
       (Schemas.session_id request) (Schemas.user_id request) store
     = String.concat "" (omap user_token items).
Proof.
  intros items. split.
  - rewrite chat_stream_events. cbn zeta. fold items.
    rewrite sent_app, sent_tail by (left; reflexivity). rewrite app_nil_r.
    destruct (sent_progress (snd (consume loop_start items))
                (consume_progress _ _)) as [-> _].
    destruct (consume_tokens items loop_start) as [-> _]. reflexivity.
  - unfold accumulated_text. fold items.
    destruct (consume_tokens items loop_start) as [_ ->]. reflexivity.
Qed.

Lemma node_status_injective a b label :
  assoc a node_status = Some label ->
  assoc b node_status = Some label -> a = b.
Proof.
  unfold node_status. cbn [assoc]. intros Ha Hb.
  repeat match goal with
         | H : context [String.eqb ?x ?y] |- _ =>
             destruct (String.eqb_spec x y)
         end;
    subst; try reflexivity; try discriminate; congruence.
Qed.

Lemma node_status_member n label :
  assoc n node_status = Some label -> In label (map snd node_status).
Proof.
  unfold node_status. cbn [assoc].
  repeat (destruct (String.eqb _ n); [intros [= <-]; cbn; tauto |]).
  discriminate.
Qed.

Lemma alternating_app prev a b :
  alternating prev a ->
  alternating (from_option Some prev (last a)) b ->
  alternating prev (a ++ b).
Proof.
  revert prev. induction a as [| l a IH]; intros prev Ha Hb; [exact Hb |].
  cbn [app alternating] in *. destruct Ha as [Hne Ha]. split; [exact Hne |].
  apply IH; [exact Ha |].
  destruct a as [| l' a]; [exact Hb |].
  rewrite last_cons_cons in Hb. cbn [last]. 
  destruct (last (l' :: a)) eqn:Hlast; cbn in *; [exact Hb |].
  apply last_None in Hlast. discriminate.
Qed.

Lemma last_app_from {A} (a b : list A) (prev : option A) :
  from_option Some (from_option Some prev (last a)) (last b)
  = from_option Some prev (last (a ++ b)).
Proof.
  rewrite last_app. destruct (last b); reflexivity.
Qed.

Lemma status_invariant_app st st1 st2 o1 o2 :
  status_invariant st st1 o1 ->
  status_invariant st1 st2 o2 ->
  status_invariant st st2 (o1 ++ o2).
Proof.
  intros (Ha1 & Hc1 & Hm1) (Ha2 & Hc2 & Hm2). unfold status_invariant.
  rewrite statuses_app. repeat split.
  - apply alternating_app; [exact Ha1 |]. rewrite <- Hc1. exact Ha2.
  - rewrite Hc2, Hc1. apply last_app_from.
  - apply Forall_app. split; assumption.
Qed.

Lemma status_invariant_silent st st' out :
  current_node st' = current_node st ->
  statuses out = [] ->
  status_invariant st st' out.
Proof.
  intros Hc Hs. unfold status_invariant, current_label. rewrite Hs, Hc.
  repeat split. constructor.
Qed.

Lemma status_invariant_enter st st' name label :
  negb (is_node (current_node st) name) = true ->
  assoc name node_status = Some label ->
  current_node st' = Some name ->
  status_invariant st st' [status_tuple label].
Proof.
  intros Hcur Hlabel Hc. unfold status_invariant, current_label.
  rewrite Hc. change (statuses [status_tuple label]) with [label].
  change (Some name ≫= (fun n => assoc n node_status))
    with (assoc name node_status).
  rewrite Hlabel. split; [| split; [reflexivity |]].
  - split; [| exact I].
    destruct (current_node st) as [c |]; [| discriminate].
    change (Some c ≫= (fun n => assoc n node_status))
      with (assoc c node_status).
    intros Hc'. cbn [is_node] in Hcur.
    destruct (String.eqb c name) eqn:Hcn; [discriminate |].
    apply String.eqb_neq in Hcn. apply Hcn.
    eapply node_status_injective; [| exact Hlabel]. congruence.
  - constructor; [| constructor]. eapply node_status_member. exact Hlabel.
Qed.

Lemma on_update_status st entry :
  status_invariant st (fst (on_update st entry)) (snd (on_update st entry)).
Proof.
  destruct entry as [name out]. unfold on_update.
  destruct (negb (is_node (current_node st) name)) eqn:Hcur;
    destruct (assoc name node_status) as [label |] eqn:Hlabel;
    destruct (String.eqb name "tool" && output_truthy out); cbn [fst snd];
    try (apply status_invariant_silent; reflexivity).
  all: eapply status_invariant_enter; [exact Hcur | exact Hlabel | reflexivity].
Qed.

Lemma on_updates_status event : forall st,
  status_invariant st (fst (on_updates st event)) (snd (on_updates st event)).
Proof.
  induction event as [| entry rest IH]; intros st; cbn [on_updates].
  - apply status_invariant_silent; reflexivity.
  - pose proof (on_update_status st entry) as H1.
    destruct (on_update st entry) as [st1 out1].
    specialize (IH st1). destruct (on_updates st1 rest) as [st2 out2].
    cbn [fst snd] in *. eapply status_invariant_app; eassumption.
Qed.

Lemma on_item_status st item :
  status_invariant st (fst (on_item st item)) (snd (on_item st item)).
Proof.
  destruct item as [event | msg meta | mode]; cbn [on_item].
  - apply on_updates_status.
  - pose proof (on_message_spec st msg meta) as H.
    destruct (user_token (Messages msg meta)) as [t |].
    + destruct H as (-> & _ & _). apply status_invariant_silent; reflexivity.
    + rewrite H. apply status_invariant_silent; reflexivity.
  - apply status_invariant_silent; reflexivity.
Qed.

Lemma consume_status items : forall st,
  status_invariant st (fst (consume st items)) (snd (consume st items)).
Proof.
  induction items as [| item rest IH]; intros st; cbn [consume].
  - apply status_invariant_silent; reflexivity.
  - pose proof (on_item_status st item) as H1.
    destruct (on_item st item) as [st1 out1].
    specialize (IH st1). destruct (consume st1 rest) as [st2 out2].
    cbn [fst snd] in *. eapply status_invariant_app; eassumption.
Qed.

Lemma alternating_lookup prev (labels : list string) :
  alternating prev labels ->
  forall i a b, labels !! i = Some a -> labels !! S i = Some b -> a <> b.
Proof.
  revert prev. induction labels as [| l rest IH]; intros prev Halt i a b Ha Hb.
  - discriminate.
  - destruct Halt as [_ Hrest]. destruct i as [| i].
    + cbn in Ha, Hb. injection Ha as <-.
      destruct rest as [| l' rest]; [discriminate |].
      cbn in Hb. injection Hb as <-. destruct Hrest as [Hne _]. congruence.
    + eapply (IH _ Hrest i); eassumption.
Qed.

(** X2: the status events of a stream never repeat: no status label is
    sent twice in a row, even when the same node reports several updates or
    tokens come in between, and every label sent is one of the four of
    [node_status]. *)
Theorem status_never_repeats (graph : CompiledGraph) request (store : Store) :
  exists labels,
    sent Schemas.thinking (fst (chat_stream graph request store))
    = map Some labels
    /\ (forall i a b,
          labels !! i = Some a -> labels !! S i = Some b -> a <> b)
    /\ Forall (fun l => In l (map snd node_status)) labels.
Proof.
  set (items := stream_items graph (Schemas.message request)
                  (Schemas.session_id request) (Schemas.user_id request) store).
  exists (statuses (snd (consume loop_start items))).
  destruct (consume_status items loop_start) as (Halt & _ & Hmem).
  split; [| split; [eapply alternating_lookup; exact Halt | exact Hmem]].
  rewrite chat_stream_events. cbn zeta. fold items.
  rewrite sent_app, sent_tail by (right; reflexivity). rewrite app_nil_r.
  apply sent_progress. apply consume_progress.
Qed.

Lemma default_last_cons {A} (d v : A) (l : list A) :
  default d (last (v :: l)) = default v (last l).
Proof. destruct l as [| w l]; [reflexivity |]. rewrite last_cons_cons.
  destruct (last (w :: l)) eqn:H; [reflexivity |].
  apply last_None in H. discriminate.
Qed.

Lemma default_last_app {A} (d : A) (a b : list A) :
  default d (last (a ++ b)) = default (default d (last a)) (last b).
Proof. rewrite last_app. destruct (last b); reflexivity. Qed.

Lemma on_update_tool st entry :
  final_tool_name (fst (on_update st entry))
  = default (final_tool_name st) (reported_tool entry).
Proof.
  destruct entry as [name out]. unfold on_update, reported_tool. cbn [fst snd].
  destruct (negb (is_node (current_node st) name));
    destruct (assoc name node_status);
    destruct (String.eqb name "tool" && output_truthy out); reflexivity.
Qed.

Lemma on_updates_tool event : forall st,
  final_tool_name (fst (on_updates st event))
  = default (final_tool_name st) (last (omap reported_tool event)).
Proof.
  induction event as [| entry rest IH]; intros st; cbn [on_updates];
    [reflexivity |].
  pose proof (on_update_tool st entry) as H1.
  destruct (on_update st entry) as [st1 out1]. specialize (IH st1).
  destruct (on_updates st1 rest) as [st2 out2]. cbn [fst] in *.
  rewrite IH, H1. cbn [omap list_omap].
  destruct (reported_tool entry) as [v |]; [| reflexivity].
  rewrite default_last_cons. reflexivity.
Qed.

Lemma consume_tool items : forall st,
  final_tool_name (fst (consume st items))
  = default (final_tool_name st) (last (reported_tools items)).
Proof.
  induction items as [| item rest IH]; intros st; cbn [consume];
    [reflexivity |].
  assert (Hitem :
    final_tool_name (fst (on_item st item))
    = default (final_tool_name st) (last (reported_tools [item]))).
  { unfold reported_tools. cbn [map concat]. rewrite app_nil_r.
    destruct item as [event | msg meta | mode]; cbn [on_item].
    - apply on_updates_tool.
    - pose proof (on_message_spec st msg meta) as H.
      destruct (user_token (Messages msg meta)) as [t |].
      + destruct H as (-> & _ & _). reflexivity.
      + rewrite H. reflexivity.
    - reflexivity. }
  destruct (on_item st item) as [st1 out1]. specialize (IH st1).
  destruct (consume st1 rest) as [st2 out2]. cbn [fst] in *.
  rewrite IH, Hitem.
  replace (reported_tools (item :: rest))
    with (reported_tools [item] ++ reported_tools rest).
  - symmetry. apply default_last_app.
  - unfold reported_tools. cbn [map concat]. rewrite app_nil_r. reflexivity.
Qed.

Lemma progress_events (out : list progress) :
  Forall progress_tuple out ->
  Forall (fun e => is_progress e = true /\ Schemas.ev_tool_used e = None)
    (concat (map events_of out)).
Proof.
  induction 1 as [| p out Hp _ IH]; [constructor |].
  cbn [map concat]. apply Forall_app. split; [| exact IH].
  destruct Hp as [label Hl | t Ht]; unfold events_of; cbn;
    rewrite ?Hl, ?Ht; repeat constructor.
Qed.

(** X3: the tool name a stream reports is the "tool_name" of the last
    non-empty update of the node called "tool", and none when there was no
    such update; a response event carries exactly that name and no other
    event carries a tool name. *)
Theorem tool_used_is_last_tool_update (graph : CompiledGraph) request
    (store : Store) :
  let items := stream_items graph (Schemas.message request)
                 (Schemas.session_id request) (Schemas.user_id request) store in
  resolved_tool graph (Schemas.message request) (Schemas.session_id request)
    (Schemas.user_id request) store
  = default None (last (reported_tools items))
  /\ (forall e,
        In e (fst (chat_stream graph request store)) ->
        Schemas.ev_tool_used e
        = if Schemas.is_type Schemas.response e
          then default None (last (reported_tools items)) else None).
Proof.
  intros items.
  assert (Htool :
    resolved_tool graph (Schemas.message request) (Schemas.session_id request)
      (Schemas.user_id request) store
    = default None (last (reported_tools items))).
  { unfold resolved_tool. fold items. apply consume_tool. }
  split; [exact Htool |].
  intros e. rewrite chat_stream_events. cbn zeta. fold items.
  rewrite in_app_iff. intros [Hin | Hin].
  - pose proof (progress_events (snd (consume loop_start items))
                  (consume_progress _ _)) as Hall.
    rewrite List.Forall_forall in Hall. destruct (Hall e Hin) as [Hp ->].
    unfold is_progress, Schemas.is_type in *.
    destruct (Schemas.type e); try reflexivity; discriminate.
  - rewrite <- Htool.
    destruct (stream_fault _ _ _ _ _).
    + destruct Hin as [<- | [<- | []]]; reflexivity.
    + destruct (Py.truthy_str _); cbn in Hin.
      * destruct Hin as [<- | [<- | []]]; reflexivity.
      * destruct Hin as [<- | []]; reflexivity.
Qed.

End MergeProperties.

(** ** Histories across runs *)

Section TurnProperties.
Import Chat.
Import Merge.

Variable graph : CompiledGraph.

Lemma paired_snoc_bounded n : forall history m text,
  length history <= n ->
  paired history = true ->
  Py.truthy_str text = true ->
  paired (history ++ [Message HumanMessage m; Message AIMessage text]) = true.
Proof.
  induction n as [n IH] using lt_wf_ind. intros history m text Hlen Hp Ht.
  destruct history as [| [[] c1] [| [[] c2] rest]]; cbn in Hp; try discriminate.
  - cbn. rewrite Ht. reflexivity.
  - apply andb_prop in Hp as [Hc2 Hrest].
    cbn [app paired]. rewrite Hc2. cbn [andb].
    apply (IH (length rest)); [cbn in Hlen; lia | lia | exact Hrest | exact Ht].
Qed.

Lemma paired_snoc history m text :
  paired history = true ->
  Py.truthy_str text = true ->
  paired (history ++ [Message HumanMessage m; Message AIMessage text]) = true.
Proof. apply (paired_snoc_bounded (length history)). lia. Qed.

Lemma paired_even history : paired history = true -> Nat.Even (length history).
Proof.
  remember (length history) as n eqn:Hn. revert history Hn.
  induction n as [n IH] using lt_wf_ind. intros history Hn Hp.
  destruct history as [| [[] c1] [| [[] c2] rest]]; cbn in Hp; try discriminate.
  - subst n. exists 0. reflexivity.
  - apply andb_prop in Hp as [_ Hrest].
    destruct (IH (length rest)) with (history := rest) as [k Hk];
      [subst n; cbn; lia | reflexivity | exact Hrest |].
    exists (S k). subst n. cbn [length]. lia.
Qed.

Lemma run_stream_paired message sid uid (store : Store) :
  map_Forall (fun _ history => paired history = true) store ->
  map_Forall (fun _ history => paired history = true)
    (run_stream graph message sid uid store).
Proof.
  intros Hinv. pose proof (run_stream_spec graph message sid uid store) as H.
  cbn zeta in H. unfold productive in H.
  destruct (stream_fault graph message sid uid store); [rewrite H; exact Hinv |].
  destruct (Py.truthy_str (accumulated_text graph message sid uid store)) eqn:Ht;
    [| rewrite H; exact Hinv].
  destruct H as [Hkey Hother]. intros k history Hk.
  destruct (decide (k = session_key sid)) as [-> | Hne].
  - rewrite Hkey in Hk. injection Hk as <-.
    apply paired_snoc; [| exact Ht].
    unfold history_of. destruct (store !! session_key sid) as [h |] eqn:Hh;
      [apply (Hinv _ _ Hh) | reflexivity].
  - rewrite Hother in Hk by exact Hne. apply (Hinv _ _ Hk).
Qed.

(** X4: if every stored history is a sequence of turns (a user message
    followed by a non-empty assistant message), it still is after any
    number of streaming runs, whether they complete, stay silent or fail;
    so a history never ends with an unanswered user message and its length
    is even. *)
Theorem histories_stay_paired messages sid uid (store : Store) :
  map_Forall (fun _ history => paired history = true) store ->
  map_Forall (fun _ history => paired history = true)
    (run_streams graph messages sid uid store)
  /\ (forall k, Nat.Even (length (history_of (run_streams graph messages sid uid store) k))).
Proof.
  intros Hinv.
  assert (Hall : map_Forall (fun _ history => paired history = true)
                   (run_streams graph messages sid uid store)).
  { revert store Hinv. induction messages as [| m rest IH]; intros store Hinv;
      cbn [run_streams]; [exact Hinv |].
    apply IH. apply run_stream_paired. exact Hinv. }
  split; [exact Hall |].
  intros k. unfold history_of.
  destruct (run_streams graph messages sid uid store !! k) as [h |] eqn:Hk.
  - apply paired_even. apply (Hall _ _ Hk).
  - exists 0. reflexivity.
Qed.

Lemma run_streams_extend messages sid uid (store : Store) :
  (exists added,
     history_of (run_streams graph messages sid uid store) (session_key sid)
     = history_of store (session_key sid) ++ added)
  /\ (forall k, k <> session_key sid ->
        run_streams graph messages sid uid store !! k = store !! k).
Proof.
  revert store. induction messages as [| m rest IH]; intros store;
    cbn [run_streams].
  - split; [exists []; rewrite app_nil_r; reflexivity | reflexivity].
  - destruct (IH (run_stream graph m sid uid store)) as [[added Hadd] Hkeep].
    pose proof (run_stream_spec graph m sid uid store) as H. cbn zeta in H.
    destruct (productive graph m sid uid store).
    + destruct H as [Hkey Hother]. split.
      * eexists. rewrite Hadd. unfold history_of at 1. rewrite Hkey.
        cbn [default from_option id]. rewrite <- app_assoc. reflexivity.
      * intros k Hk. rewrite Hkeep, Hother by exact Hk. reflexivity.
    + rewrite H in *. split; [exists added; exact Hadd | exact Hkeep].
Qed.

(** X5: streaming runs only ever extend a session's history: after any
    number of runs what was stored for the session is still there, as a
    prefix, and the history of every other session is exactly as it was. *)
Theorem history_only_extended messages sid uid (store : Store) :
  (exists added,
     history_of (run_streams graph messages sid uid store) (session_key sid)
     = history_of store (session_key sid) ++ added)
  /\ (forall k, k <> session_key sid ->
        run_streams graph messages sid uid store !! k = store !! k).
Proof. apply run_streams_extend. Qed.

(** X6: what the next run of a session starts from: after a run that
    completed with some text, the graph is given the earlier history, the
    previous user message, the assistant's text and the new user message;
    after a run that failed or accumulated nothing, the previous user
    message is not part of the conversation. *)
Theorem next_run_sees_previous_turn first second sid uid (store : Store) :
  messages (stream_initial_state second sid uid
              (run_stream graph first sid uid store))
  = if productive graph first sid uid store then
      history_of store (session_key sid)
      ++ [ Message HumanMessage first;
           Message AIMessage (accumulated_text graph first sid uid store);
           Message HumanMessage second ]
    else history_of store (session_key sid) ++ [Message HumanMessage second].
Proof.
  pose proof (run_stream_spec graph first sid uid store) as H. cbn zeta in H.
  unfold stream_initial_state. cbn [messages].
  destruct (productive graph first sid uid store).
  - destruct H as [Hkey _]. unfold history_of at 1. rewrite Hkey.
    cbn [default from_option id]. rewrite <- app_assoc. reflexivity.
  - rewrite H. reflexivity.
Qed.

(** X7: the outcomes of [chat]: when the graph raises, and when the final
    state has fewer than two messages, the result is an HTTP error with
    status 500 whose detail ends with the exception's text; otherwise it is
    the content of the last message together with the final state's tool
    name, never marked as cached.  No other status code is produced. *)
Theorem chat_outcomes request (store : Store) :
  let prefix := "에이전트 처리 중 오류가 발생했습니다: " in
  (forall e,
     ainvoke graph (chat_initial_state request) = Py.Raise e ->
     fst (chat graph request store)
     = inr {| status_code := 500; detail := prefix +:+ e |})
  /\ (forall final_state,
        ainvoke graph (chat_initial_state request) = Py.Ok final_state ->
        length (messages final_state) < 2 ->
        fst (chat graph request store)
        = inr {| status_code := 500;
                 detail := prefix +:+ "응답 메시지가 없습니다." |})
  /\ (forall final_state,
        ainvoke graph (chat_initial_state request) = Py.Ok final_state ->
        2 <= length (messages final_state) ->
        exists m,
          last (messages final_state) = Some m
          /\ fst (chat graph request store)
             = inl {| Schemas.reply := content m;
                      Schemas.tool_used := tool_name final_state;
                      Schemas.cached := false |})
  /\ (forall err,
        fst (chat graph request store) = inr err -> status_code err = 500%Z).
Proof.
  intros prefix. unfold chat.
  destruct (ainvoke graph (chat_initial_state request)) as [fs | e0];
    cbn [mbind result_bind Py.bind].
  - destruct (Nat.ltb_spec (length (messages fs)) 2) as [Hlt | Hge].
    + split; [intros e He; discriminate He |].
      split; [intros fs' Hfs _; reflexivity |].
      split; [intros fs' Hfs Hge; injection Hfs as <-; lia |].
      intros err Herr. injection Herr as <-. reflexivity.
    + destruct (last (messages fs)) as [m |] eqn:Hlast.
      * split; [intros e He; discriminate He |].
        split; [intros fs' Hfs Hlt; injection Hfs as <-; lia |].
        split; [| intros err Herr; discriminate Herr].
        intros fs' Hfs _. injection Hfs as <-.
        exists m. split; [exact Hlast | reflexivity].
      * apply last_None in Hlast. rewrite Hlast in Hge. cbn in Hge. lia.
  - split; [intros e He; injection He as <-; reflexivity |].
    split; [intros fs' Hfs; discriminate Hfs |].
    split; [intros fs' Hfs; discriminate Hfs |].
    intros err Herr. injection Herr as <-. reflexivity.
Qed.

Lemma session_key_not_empty sid : session_key sid <> "".
Proof.
  unfold session_key, Py.truthy_str.
  destruct (String.eqb_spec sid "") as [-> | Hne]; cbn [negb];
    [discriminate | exact Hne].
Qed.

(** X19: an empty session identifier is an alias of "default": a run with
    it reads and writes the history stored under "default", and no sequence
    of runs ever stores anything under the empty key. *)
Theorem empty_session_is_default messages message sid uid (store : Store) :
  stream_with_status graph message "" uid store
  = stream_with_status graph message "default" uid store
  /\ run_stream graph message "" uid store
     = run_stream graph message "default" uid store
  /\ run_streams graph messages sid uid store !! "" = store !! ""
  /\ (sid <> "" -> session_key sid = sid).
Proof.
  split; [reflexivity |]. split; [reflexivity |]. split.
  - apply run_streams_extend. intros H. symmetry in H.
    exact (session_key_not_empty sid H).
  - intros Hne. unfold session_key, Py.truthy_str.
    destruct (String.eqb_spec sid ""); [contradiction | reflexivity].
Qed.

End TurnProperties.

(** ** Envelopes and queries of the tools *)

Section ToolProperties.
Import Py.
Import Executor.
Import Tooling.

Variable execute_query : Schedule.Query -> result (list value).
Variable create_letter :
  string -> option string -> value -> value -> result value.

(** A success envelope: [success] is true, there is a [data] dict and no
    [error]. *)
Lemma dispatch_success rnd name args sid uid envelope :
  dispatch execute_query create_letter rnd name args sid uid = Ok envelope ->
  (lookup envelope "success" = Some (PBool true)
   /\ (exists d, lookup envelope "data" = Some (PDict d))
   /\ lookup envelope "error" = None
   /\ lookup envelope "mock"
      = if String.eqb name "recommend_song" || String.eqb name "get_weather"
        then Some (PBool true) else None)
  \/ (~ In name dispatch_table
      /\ envelope = failure ("알 수 없는 Tool: " +:+ name)).
Proof.
  unfold dispatch.
  destruct (String.eqb_spec name "get_schedule") as [-> | N1].
  { intros [= <-]. left. unfold _get_schedule.
    destruct (Schedule.get_schedules _ _ _ _); cbn; eauto 6. }
  destruct (String.eqb_spec name "send_fan_letter") as [-> | N2].
  { unfold _send_fan_letter.
    destruct (slice_prefix _); cbn [mbind result_bind bind]; [| discriminate].
    destruct (create_letter _ _ _ _); cbn [mbind result_bind bind];
      [| discriminate].
    intros [= <-]. left. cbn. eauto 6. }
  destruct (String.eqb_spec name "recommend_song") as [-> | N3].
  { unfold _recommend_song.
    destruct (songs_for _); cbn [mbind result_bind bind]; [| discriminate].
    destruct (random_choice _ _); cbn [mbind result_bind bind];
      [| discriminate].
    intros [= <-]. left. cbn. eauto 6. }
  destruct (String.eqb_spec name "get_weather") as [-> | N4].
  { intros [= <-]. left. cbn. eauto 6. }
  intros [= <-]. right. split; [| reflexivity].
  cbn. intros [H | [H | [H | [H | []]]]]; congruence.
Qed.

(** X8: whatever the tool name, the arguments and the behaviour of the
    stores, the envelope [execute] returns is well formed: either [success]
    is true, with a [data] dict and no [error] key, or it is exactly
    [{success: false, error: <text>}], and then it has no [data]. *)
Theorem envelope_is_well_formed rnd name args sid uid :
  let envelope := execute execute_query create_letter rnd name args sid uid in
  (lookup envelope "success" = Some (PBool true)
   /\ (exists d, lookup envelope "data" = Some (PDict d))
   /\ lookup envelope "error" = None)
  \/ (exists msg,
        envelope = [("success", PBool false); ("error", PStr msg)]
        /\ lookup envelope "data" = None).
Proof.
  cbn zeta. unfold execute.
  destruct (dispatch execute_query create_letter rnd name args sid uid)
    as [envelope | e] eqn:Hd.
  - destruct (dispatch_success _ _ _ _ _ _ Hd) as [(Hs & Hdata & He & _) | [_ ->]].
    + left. auto.
    + right. eexists. split; reflexivity.
  - right. exists e. split; reflexivity.
Qed.

(** X9: the [mock] flag marks exactly the envelopes of the two tools that
    answer from fixed tables: it is true on every successful result of
    "recommend_song" and on every result of "get_weather", and the key is
    absent from every other envelope, failures included. *)
Theorem mock_marks_fixed_tables rnd name args sid uid :
  let envelope := execute execute_query create_letter rnd name args sid uid in
  lookup envelope "mock"
  = if (String.eqb name "recommend_song" || String.eqb name "get_weather")
       && is_success envelope
    then Some (PBool true) else None.
Proof.
  cbn zeta. unfold execute.
  destruct (dispatch execute_query create_letter rnd name args sid uid)
    as [envelope | e] eqn:Hd.
  - destruct (dispatch_success _ _ _ _ _ _ Hd) as [(Hs & _ & _ & Hm) | [_ ->]].
    + unfold is_success. rewrite Hm, Hs, andb_true_r. reflexivity.
    + cbn. rewrite andb_false_r. reflexivity.
  - cbn. rewrite andb_false_r. reflexivity.
Qed.

(** X10: "get_schedule" never reports a failure: its envelope has
    [success: true] whatever the storage client does; it sends one query,
    that of its arguments, and when the read returns records they are
    passed on unchanged together with their number. *)
Theorem get_schedule_always_succeeds rnd args sid uid :
  let envelope :=
    execute execute_query create_letter rnd "get_schedule" args sid uid in
  lookup envelope "success" = Some (PBool true)
  /\ (forall record records,
        execute_query (schedule_query args) = Ok (record :: records) ->
        envelope
        = [ ("success", PBool true);
            ("data",
             PDict [ ("schedules", PList (record :: records));
                     ("count", PInt (Z.of_nat (S (length records)))) ]) ])
  /\ (forall other : Schedule.Query -> result (list value),
        other (schedule_query args) = execute_query (schedule_query args) ->
        execute other create_letter rnd "get_schedule" args sid uid = envelope).
Proof.
  cbn zeta. unfold execute, dispatch. cbn [String.eqb Ascii.eqb Bool.eqb].
  unfold _get_schedule, Schedule.get_schedules.
  fold (schedule_query args).
  split; [| split].
  - destruct (execute_query (schedule_query args)) as [[| r rs] | e]; reflexivity.
  - intros record records ->. reflexivity.
  - intros other ->. reflexivity.
Qed.

(** X11: the query of "get_schedule" reads all columns of table
    "schedules" ordered by "start_time", with at most three filters; it
    filters on "event_type" exactly when the argument is a truthy value
    other than "all" (the default when the key is missing), and on a date
    bound exactly when that argument is truthy. *)
Theorem schedule_query_filters args :
  let q := schedule_query args in
  let start_date := get args "start_date" PNone in
  let end_date := get args "end_date" PNone in
  let event_type := get args "event_type" (PStr "all") in
  Schedule.q_table q = "schedules"
  /\ Schedule.q_select q = "*"
  /\ Schedule.q_order q = Some "start_time"
  /\ Schedule.q_filters q
     = (if truthy start_date
        then [(Schedule.Gte, "start_time", start_date)] else [])
       ++ (if truthy end_date
           then [(Schedule.Lte, "start_time", end_date)] else [])
       ++ (if truthy event_type && differs_from_str event_type "all"
           then [(Schedule.Eq, "event_type", event_type)] else [])
  /\ (lookup args "event_type" = None ->
      filter (fun f => is_eq_filter f = true) (Schedule.q_filters q) = []).
Proof.
  cbn zeta.
  set (et := get args "event_type" (PStr "all")).
  assert (Hfilters :
    Schedule.q_filters (schedule_query args)
    = (if truthy (get args "start_date" PNone)
       then [(Schedule.Gte, "start_time", get args "start_date" PNone)] else [])
      ++ (if truthy (get args "end_date" PNone)
          then [(Schedule.Lte, "start_time", get args "end_date" PNone)] else [])
      ++ (if truthy et && differs_from_str et "all"
          then [(Schedule.Eq, "event_type", et)] else [])).
  { unfold schedule_query, Schedule.build_query. fold et. cbn zeta.
    destruct (differs_from_str et "all"); cbn [truthy];
      rewrite ?andb_true_r, ?andb_false_r;
      destruct (truthy (get args "start_date" PNone)),
               (truthy (get args "end_date" PNone)), (truthy et);
      reflexivity. }
  split; [| split; [| split; [| split; [exact Hfilters |]]]].
  1-3: unfold schedule_query, Schedule.build_query; fold et; cbn zeta;
    destruct (differs_from_str et "all"); cbn [truthy];
    destruct (truthy (get args "start_date" PNone)),
             (truthy (get args "end_date" PNone)), (truthy et);
    reflexivity.
  intros Hmissing. rewrite Hfilters.
  assert (Het : et = PStr "all").
  { unfold et, get. rewrite Hmissing. reflexivity. }
  rewrite Het.
  destruct (truthy (get args "start_date" PNone)),
           (truthy (get args "end_date" PNone)); reflexivity.
Qed.

Lemma table_not_empty mood songs :
  Graph.assoc mood LUMI_SONGS = Some songs ->
  songs <> [] /\ (forall s, In s songs -> In s all_songs).
Proof.
  unfold LUMI_SONGS. cbn [Graph.assoc].
  repeat (destruct (String.eqb _ mood);
          [intros [= <-]; split; [discriminate | cbn; tauto] |]).
  discriminate.
Qed.

Lemma songs_for_spec mood songs :
  songs_for mood = Ok songs ->
  songs <> []
  /\ (forall s, In s songs -> In s all_songs)
  /\ songs = match mood with
             | PStr m => default (songs_of "happy") (Graph.assoc m LUMI_SONGS)
             | _ => songs_of "happy"
             end.
Proof.
  unfold songs_for.
  destruct mood as [| b | z | m e | m | l | d]; cbn [hashable mbind result_bind bind];
    try discriminate;
    try (intros [= <-]; split; [discriminate |]; split;
         [cbn; tauto | reflexivity]).
  destruct (Graph.assoc m LUMI_SONGS) as [table |] eqn:Ht; intros [= <-].
  - destruct (table_not_empty m table Ht) as [Hne Hin].
    split; [exact Hne |]. split; [exact Hin | reflexivity].
  - split; [discriminate |]. split; [cbn; tauto | reflexivity].
Qed.

(** X12: "recommend_song" for any arguments: when the mood given can be
    hashed, the result is a success envelope that reports the mood as it
    was given and a song of the table of that mood, or of the "happy" table
    when the mood is not one of the five known ones; the song is always one
    of the fixed list.  A mood that is a list or a dict gives a failure
    envelope. *)
Theorem recommend_song_for_any_mood rnd args sid uid :
  let mood := get args "mood" (PStr "happy") in
  let envelope :=
    execute execute_query create_letter rnd "recommend_song" args sid uid in
  (hashable mood = Ok tt ->
   exists s,
     envelope = [ ("success", PBool true);
                  ("data", PDict [("song", s); ("mood", mood)]);
                  ("mock", PBool true) ]
     /\ In s all_songs
     /\ In s match mood with
             | PStr m => default (songs_of "happy") (Graph.assoc m LUMI_SONGS)
             | _ => songs_of "happy"
             end)
  /\ (forall e, hashable mood = Raise e ->
        envelope = [("success", PBool false); ("error", PStr e)]).
Proof.
  cbn zeta. unfold execute, dispatch. cbn [String.eqb Ascii.eqb Bool.eqb].
  unfold _recommend_song. set (mood := get args "mood" (PStr "happy")).
  split.
  - intros Hhash.
    destruct (songs_for mood) as [songs | e] eqn:Hsongs.
    + destruct (songs_for_spec mood songs Hsongs) as (Hne & Hall & Htable).
      destruct (random_choice_in rnd songs Hne) as (s & Hs & Hin).
      exists s. cbn [mbind result_bind bind]. rewrite Hs.
      split; [reflexivity |]. split; [apply Hall; exact Hin |].
      rewrite <- Htable. exact Hin.
    + unfold songs_for in Hsongs. rewrite Hhash in Hsongs.
      cbn [mbind result_bind bind] in Hsongs.
      destruct mood; try discriminate.
      destruct (Graph.assoc _ _); discriminate.
  - intros e Hhash. unfold songs_for. rewrite Hhash. reflexivity.
Qed.

(** X13: "send_fan_letter": the letter is stored with the category and the
    message of the arguments, "other" and the empty message when they are
    missing, and the envelope returns the identifier the store gave.  A
    message that cannot be sliced fails before the store is reached: the
    result is the same failure whatever the store would have done. *)
Theorem send_fan_letter_result rnd args sid uid :
  let category := get args "category" (PStr "other") in
  let message := get args "message" (PStr "") in
  (forall letter_id,
     slice_prefix message = Ok tt ->
     create_letter sid uid category message = Ok letter_id ->
     execute execute_query create_letter rnd "send_fan_letter" args sid uid
     = [ ("success", PBool true);
         ("data", PDict [ ("letter_id", letter_id);
                          ("message", PStr "팬레터가 잘 전달됐어요!") ]) ])
  /\ (forall e
        (other : string -> option string -> value -> value -> result value),
        slice_prefix message = Raise e ->
        execute execute_query other rnd "send_fan_letter" args sid uid
        = [("success", PBool false); ("error", PStr e)])
  /\ (lookup args "message" = None ->
      lookup args "category" = None ->
      execute execute_query create_letter rnd "send_fan_letter" args sid uid
      = match create_letter sid uid (PStr "other") (PStr "") with
        | Ok letter_id =>
            [ ("success", PBool true);
              ("data", PDict [ ("letter_id", letter_id);
                               ("message", PStr "팬레터가 잘 전달됐어요!") ]) ]
        | Raise e => [("success", PBool false); ("error", PStr e)]
        end).
Proof.
  cbn zeta. unfold execute, dispatch. cbn [String.eqb Ascii.eqb Bool.eqb].
  unfold _send_fan_letter. split; [| split].
  - intros letter_id Hslice Hcreate. rewrite Hslice.
    cbn [mbind result_bind bind]. rewrite Hcreate. reflexivity.
  - intros e other Hslice. rewrite Hslice. reflexivity.
  - intros Hm Hc. unfold get. rewrite Hm, Hc. cbn [slice_prefix mbind result_bind bind].
    destruct (create_letter sid uid (PStr "other") (PStr "")); reflexivity.
Qed.

End ToolProperties.

(** ** The cached graph *)

Section SingletonProperties.
Import Singleton.

Variables router_node rag_node tool_node response_node : node.

Lemma calls_cached n : forall g,
  calls router_node rag_node tool_node response_node n (Some g)
  = (repeat g n, (if n is O then Some g else Some g), 0).
Proof.
  induction n as [| n IH]; intros g; [reflexivity |].
  cbn [calls get_lumi_graph]. rewrite IH. destruct n; reflexivity.
Qed.

(** X14: however often [get_lumi_graph] is called, every call returns the
    same graph: the cached one when there was one, and otherwise the graph
    [create_lumi_graph] built on the first call, which is then the only
    time the graph is built. *)
Theorem graph_is_built_once n cache :
  let g := default
             (create_lumi_graph router_node rag_node tool_node response_node)
             cache in
  let '(graphs, cache', built) :=
    calls router_node rag_node tool_node response_node n cache in
  graphs = repeat g n
  /\ (0 < n -> cache' = Some g)
  /\ built = (if cache is None then (if n is O then 0 else 1) else 0).
Proof.
  cbn zeta. destruct cache as [g |].
  - rewrite calls_cached. cbn. repeat split. destruct n; [lia | reflexivity].
  - destruct n as [| n]; [cbn; repeat split; lia |].
    cbn [calls get_lumi_graph]. rewrite calls_cached.
    cbn. repeat split. destruct n; reflexivity.
Qed.

End SingletonProperties.

(** ** The review script *)

Section ReviewerProperties.
Import Reviewer.

Lemma clip_length diff :
  length (clip diff) <= diff_limit + length truncated_marker.
Proof.
  unfold clip. destruct (Nat.ltb_spec diff_limit (length diff)) as [Hlt | Hge].
  - rewrite length_app, length_take. lia.
  - lia.
Qed.

(** X15: the diff handed to the model is never longer than the limit of
    10000 characters plus the 18 of the marker: a diff within the limit is
    passed unchanged, a longer one is cut to its first 10000 characters
    followed by the marker; in both cases the characters up to the limit
    are those of the diff. *)
Theorem clipped_diff_is_bounded diff :
  length (clip diff) <= diff_limit + 18
  /\ (length diff <= diff_limit -> clip diff = diff)
  /\ (diff_limit < length diff ->
      clip diff = take diff_limit diff ++ truncated_marker
      /\ length (clip diff) = diff_limit + 18)
  /\ take diff_limit (clip diff) = take diff_limit diff.
Proof.
  change 18 with (length truncated_marker).
  split; [apply clip_length |].
  unfold clip.
  destruct (Nat.ltb_spec diff_limit (length diff)) as [Hlt | Hge].
  - split; [intros H; exfalso; lia |].
    split.
    + intros _. split; [reflexivity |].
      rewrite length_app, length_take. lia.
    + rewrite take_app_le by (rewrite length_take; lia).
      rewrite take_take, Nat.min_id. reflexivity.
  - split; [reflexivity |].
    split; [intros H; exfalso; lia | reflexivity].
Qed.

(** X16: how [main] ends: without an API key it exits with code 1 before
    anything else is looked at; with a key but no diff (a git command
    failed, or the diff is empty) it exits with code 0 and the model is not
    called; otherwise the model is called once, on the clipped diff, and
    the script prints the review and returns, or exits with code 1 when the
    call raises. *)
Theorem review_exit_codes api_key fetch diff invoke :
  (truthy_text api_key = false ->
   main api_key fetch diff invoke = (MissingKey, Some 1%Z))
  /\ (truthy_text api_key = true ->
      truthy_text (get_diff fetch diff) = false ->
      main api_key fetch diff invoke = (NothingToReview, Some 0%Z))
  /\ (forall d,
        truthy_text api_key = true ->
        get_diff fetch diff = Some d -> d <> [] ->
        main api_key fetch diff invoke
        = match invoke (clip d) with
          | Py.Ok content => (Review content, None)
          | Py.Raise e => (ReviewFailed e, Some 1%Z)
          end)
  /\ (fetch = CalledProcessError -> get_diff fetch diff = None)
  /\ (snd (main api_key fetch diff invoke) = None <->
      exists content, fst (main api_key fetch diff invoke) = Review content).
Proof.
  unfold main. split; [intros ->; reflexivity |].
  split.
  { intros -> Hd. cbn [negb].
    destruct (get_diff fetch diff) as [[| c rest] |]; [reflexivity | discriminate | reflexivity]. }
  split.
  { intros d -> -> Hd. cbn [negb]. destruct d as [| c rest]; [congruence |].
    reflexivity. }
  split; [intros ->; reflexivity |].
  destruct (truthy_text api_key); cbn [negb].
  - destruct (get_diff fetch diff) as [[| c rest] |].
    + cbn. split; [discriminate | intros [content H]; discriminate].
    + destruct (invoke (clip (c :: rest))); cbn.
      * split; [intros _; eexists; reflexivity | reflexivity].
      * split; [discriminate | intros [content H]; discriminate].
    + cbn. split; [discriminate | intros [content H]; discriminate].
  - cbn. split; [discriminate | intros [content H]; discriminate].
Qed.

End ReviewerProperties.

(** ** What a run of the graph looks like to the client *)

Section LumiStreamProperties.
Import Chat.
Import Merge.

Variables router_node rag_node tool_node response_node : node.

Lemma consume_messages_quiet n (ms : list message) : forall st,
  let r := consume st (map (fun m => Messages m {| langgraph_node := Some n |}) ms) in
  current_node (fst r) = current_node st
  /\ final_tool_name (fst r) = final_tool_name st
  /\ statuses (snd r) = [].
Proof.
  induction ms as [| m ms IH]; intros st; [repeat split |].
  cbn [map consume on_item].
  pose proof (on_message_spec st m {| langgraph_node := Some n |}) as H.
  destruct (user_token _) as [t |].
  - destruct H as (-> & _ & _).
    match goal with
    | |- context [consume ?st1 _] => specialize (IH st1)
    end.
    cbn zeta in IH. destruct (consume _ _) as [st2 out2].
    cbn [fst snd] in *. destruct IH as (-> & -> & Hs).
    repeat split. rewrite statuses_app. rewrite Hs. reflexivity.
  - rewrite H. specialize (IH st). cbn zeta in IH.
    destruct (consume st _) as [st2 out2]. cbn [fst snd app] in *. exact IH.
Qed.

(** What the part of the stream that one node contributes does to the
    loop: one status, that of the node, and the tool name if the node is
    the tool node and returned something. *)
Lemma consume_node st n (r : NodeRun) label :
  is_node (current_node st) n = false ->
  assoc n node_status = Some label ->
  let c := consume st (node_items (n, r)) in
  statuses (snd c) = [label]
  /\ current_node (fst c) = Some n
  /\ final_tool_name (fst c)
     = default (final_tool_name st) (reported_tool (n, output r)).
Proof.
  intros Hcur Hlabel. cbn zeta. unfold node_items. cbn [fst snd].
  rewrite consume_app.
  pose proof (consume_messages_quiet n (emitted r) st) as H1. cbn zeta in H1.
  destruct (consume st (map _ (emitted r))) as [st1 out1].
  cbn [fst snd] in H1. destruct H1 as (Hc1 & Ht1 & Hs1).
  cbn [consume on_item on_updates].
  pose proof (on_update_tool st1 (n, output r)) as Htool.
  unfold on_update in *. rewrite Hc1, Hcur, Hlabel in *. cbn [negb] in *.
  destruct (String.eqb n "tool" && output_truthy (output r));
    cbn [fst snd] in *; rewrite !statuses_app, Hs1; repeat split;
    rewrite Htool, Ht1; reflexivity.
Qed.

Lemma lumi_run_observed st0 i :
  intent (after_node router_node st0) = Some i ->
  let g := create_lumi_graph router_node rag_node tool_node response_node in
  let c := consume loop_start (fst (astream g st0)) in
  snd (astream g st0) = None
  /\ map Some (statuses (snd c))
     = map (fun n => assoc n node_status) (path_of i)
  /\ final_tool_name (fst c)
     = match i with
       | tool =>
           default None
             (reported_tool
                ("tool", output (tool_node (after_node router_node st0))))
       | _ => None
       end.
Proof.
  intros Hi g c. subst c.
  pose proof (run_resolved router_node rag_node tool_node response_node
                st0 i Hi) as Hrun.
  cbn zeta in Hrun.
  unfold g, create_lumi_graph, compile. cbn [astream]. unfold run_astream.
  change (builder (create_lumi_graph router_node rag_node tool_node response_node))
    with (add_edge "response" END
           (add_edge "tool" "response"
              (add_edge "rag" "response"
                 (add_conditional_edges "router" route_by_intent
                    [("rag", "rag"); ("tool", "tool"); ("response", "response")]
                    (add_edge START "router"
                       (add_node "response" response_node
                          (add_node "tool" tool_node
                             (add_node "rag" rag_node
                                (add_node "router" router_node new_builder)))))))))
    in Hrun.
  rewrite Hrun. clear Hrun.
  destruct i; cbn [fst snd map concat path_of]; rewrite app_nil_r.
  - split; [reflexivity |]. rewrite consume_app.
    pose proof (consume_node loop_start "router" (router_node st0) _
                  eq_refl eq_refl) as H1. cbn zeta in H1.
    destruct (consume loop_start (node_items ("router", _))) as [st1 out1].
    cbn [fst snd] in H1. destruct H1 as (Hs1 & Hc1 & Ht1).
    epose proof (consume_node st1 "response"
                  (response_node (after_node router_node st0)) _) as H2.
    rewrite Hc1 in H2. specialize (H2 eq_refl eq_refl). cbn zeta in H2.
    destruct (consume st1 (node_items ("response", _))) as [st2 out2].
    cbn [fst snd] in *. destruct H2 as (Hs2 & _ & Ht2).
    rewrite statuses_app, Hs1, Hs2, Ht2, Ht1. split; reflexivity.
  - split; [reflexivity |]. rewrite consume_app.
    pose proof (consume_node loop_start "router" (router_node st0) _
                  eq_refl eq_refl) as H1. cbn zeta in H1.
    destruct (consume loop_start (node_items ("router", _))) as [st1 out1].
    cbn [fst snd] in H1. destruct H1 as (Hs1 & Hc1 & Ht1).
    rewrite consume_app.
    epose proof (consume_node st1 "rag"
                  (rag_node (after_node router_node st0)) _) as H2.
    rewrite Hc1 in H2. specialize (H2 eq_refl eq_refl). cbn zeta in H2.
    destruct (consume st1 (node_items ("rag", _))) as [st2 out2].
    cbn [fst snd] in H2. destruct H2 as (Hs2 & Hc2 & Ht2).
    epose proof (consume_node st2 "response"
                  (response_node
                     (after_node rag_node (after_node router_node st0))) _) as H3.
    rewrite Hc2 in H3. specialize (H3 eq_refl eq_refl). cbn zeta in H3.
    destruct (consume st2 (node_items ("response", _))) as [st3 out3].
    cbn [fst snd] in *. destruct H3 as (Hs3 & _ & Ht3).
    rewrite !statuses_app, Hs1, Hs2, Hs3, Ht3, Ht2, Ht1. split; reflexivity.
  - split; [reflexivity |]. rewrite consume_app.
    pose proof (consume_node loop_start "router" (router_node st0) _
                  eq_refl eq_refl) as H1. cbn zeta in H1.
    destruct (consume loop_start (node_items ("router", _))) as [st1 out1].
    cbn [fst snd] in H1. destruct H1 as (Hs1 & Hc1 & Ht1).
    rewrite consume_app.
    epose proof (consume_node st1 "tool"
                  (tool_node (after_node router_node st0)) _) as H2.
    rewrite Hc1 in H2. specialize (H2 eq_refl eq_refl). cbn zeta in H2.
    destruct (consume st1 (node_items ("tool", _))) as [st2 out2].
    cbn [fst snd] in H2. destruct H2 as (Hs2 & Hc2 & Ht2).
    epose proof (consume_node st2 "response"
                  (response_node
                     (after_node tool_node (after_node router_node st0))) _) as H3.
    rewrite Hc2 in H3. specialize (H3 eq_refl eq_refl). cbn zeta in H3.
    destruct (consume st2 (node_items ("response", _))) as [st3 out3].
    cbn [fst snd] in *. destruct H3 as (Hs3 & _ & Ht3).
    rewrite !statuses_app, Hs1, Hs2, Hs3, Ht3, Ht2, Ht1. split; reflexivity.
Qed.

(** X17: for the graph of [create_lumi_graph] and node functions that
    return, a streaming run in which the router resolves the intent sends
    one status per executed node, in execution order: the labels of router
    and response for chat, with the label of rag or tool in between for the
    other two intents. *)
Theorem status_per_executed_node request (store : Store) (i : Intent) :
  let g := create_lumi_graph router_node rag_node tool_node response_node in
  let st0 := stream_initial_state (Schemas.message request)
               (Schemas.session_id request) (Schemas.user_id request) store in
  intent (after_node router_node st0) = Some i ->
  sent Schemas.thinking (fst (chat_stream g request store))
  = map (fun n => assoc n node_status) (path_of i)
  /\ sent Schemas.thinking (fst (chat_stream g request store))
     = match i with
       | State.chat => [Some "🔀 루미 생각 중..."; Some "💬 응답 작성 중..."]
       | rag => [Some "🔀 루미 생각 중..."; Some "📚 정보 검색 중...";
                 Some "💬 응답 작성 중..."]
       | tool => [Some "🔀 루미 생각 중..."; Some "🔧 도구 실행 중...";
                  Some "💬 응답 작성 중..."]
       end.
Proof.
  intros g st0 Hi.
  destruct (lumi_run_observed st0 i Hi) as (_ & Hstatus & _).
  fold g in Hstatus.
  assert (Hsent : sent Schemas.thinking (fst (chat_stream g request store))
                  = map (fun n => assoc n node_status) (path_of i)).
  { rewrite chat_stream_events. cbn zeta.
    rewrite sent_app, sent_tail by (right; reflexivity). rewrite app_nil_r.
    destruct (sent_progress
                (snd (consume loop_start
                        (stream_items g (Schemas.message request)
                           (Schemas.session_id request) (Schemas.user_id request)
                           store)))
                (consume_progress _ _)) as [_ ->].
    exact Hstatus. }
  split; [exact Hsent |].
  rewrite Hsent. destruct i; reflexivity.
Qed.

(** X18: for the graph of [create_lumi_graph], the tool name a streaming
    run reports is taken from what the tool node returned: on the chat and
    rag paths it is none; on the tool path it is the "tool_name" of the
    tool node's update, and none when that update is empty or has no such
    key, even if an earlier node had set a tool name in the state. *)
Theorem tool_used_comes_from_tool_node request (store : Store) (i : Intent) :
  let g := create_lumi_graph router_node rag_node tool_node response_node in
  let st0 := stream_initial_state (Schemas.message request)
               (Schemas.session_id request) (Schemas.user_id request) store in
  intent (after_node router_node st0) = Some i ->
  resolved_tool g (Schemas.message request) (Schemas.session_id request)
    (Schemas.user_id request) store
  = match i with
    | tool =>
        let out := output (tool_node (after_node router_node st0)) in
        if output_truthy out then out ≫= get_tool_name else None
    | _ => None
    end.
Proof.
  intros g st0 Hi.
  destruct (lumi_run_observed st0 i Hi) as (_ & _ & Htool).
  fold g in Htool. unfold resolved_tool, stream_items. fold st0.
  rewrite Htool. destruct i; try reflexivity.
  unfold reported_tool. cbn [fst snd String.eqb Ascii.eqb Bool.eqb andb].
  destruct (output_truthy _); reflexivity.
Qed.

End LumiStreamProperties.

(** ** Further properties at concrete inputs *)

Section MoreInstances.
Import Py.
Import Chat.
Import Merge.
Import Examples.
Import Samples.

Lemma status_never_repeats_witness :
  exists labels,
    sent Schemas.thinking (fst (chat_stream greeting_graph hello no_sessions))
    = map Some labels
    /\ labels !! 0 = Some "🔀 루미 생각 중..."
    /\ labels !! 1 = Some "💬 응답 작성 중..."
    /\ "🔀 루미 생각 중..." <> "💬 응답 작성 중...".
Proof.
  destruct (status_never_repeats greeting_graph hello no_sessions)
    as (labels & Hsent & Hdiffer & _).
  exists labels. split; [exact Hsent |].
  assert (Hlabels : labels = ["🔀 루미 생각 중..."; "💬 응답 작성 중..."]).
  { vm_compute in Hsent.
    destruct labels as [| a [| b [| c rest]]]; try discriminate Hsent.
    injection Hsent as <- <-. reflexivity. }
  rewrite Hlabels in *. split; [reflexivity |]. split; [reflexivity |].
  apply (Hdiffer 0); reflexivity.
Defined.

Lemma tool_used_is_last_tool_update_witness :
  In (response_event "맑음" (Some "get_weather"))
    (fst (chat_stream weather_graph weather no_sessions))
  /\ Schemas.ev_tool_used (response_event "맑음" (Some "get_weather"))
     = default None
         (last (reported_tools (stream_items weather_graph "날씨" "s1" None no_sessions))).
Proof.
  assert (Hin : In (response_event "맑음" (Some "get_weather"))
                  (fst (chat_stream weather_graph weather no_sessions))).
  { vm_compute. tauto. }
  split; [exact Hin |].
  destruct (tool_used_is_last_tool_update weather_graph weather no_sessions)
    as (_ & Hevents).
  apply (Hevents _ Hin).
Defined.

Lemma histories_stay_paired_witness :
  map_Forall (fun _ history => paired history = true) no_sessions
  /\ map_Forall (fun _ history => paired history = true)
       (run_streams greeting_graph ["안녕"; "안녕"] "s1" None no_sessions).
Proof.
  assert (Hempty : map_Forall (fun (_ : string) history => paired history = true)
                     no_sessions) by apply map_Forall_empty.
  split; [exact Hempty |].
  apply (histories_stay_paired greeting_graph ["안녕"; "안녕"] "s1" None
           no_sessions Hempty).
Defined.

Lemma history_only_extended_witness :
  "s2" <> session_key "s1"
  /\ run_streams greeting_graph ["안녕"] "s1" None no_sessions !! "s2"
     = no_sessions !! "s2".
Proof.
  assert (Hne : "s2" <> session_key "s1") by discriminate.
  split; [exact Hne |].
  destruct (history_only_extended greeting_graph ["안녕"] "s1" None no_sessions)
    as (_ & Hother).
  apply (Hother "s2" Hne).
Defined.

Lemma chat_outcomes_witness :
  (exists final_state,
     ainvoke greeting_graph (chat_initial_state hello) = Ok final_state
     /\ 2 <= length (messages final_state))
  /\ exists m final_state,
       fst (chat greeting_graph hello no_sessions)
       = inl {| Schemas.reply := content m;
                Schemas.tool_used := tool_name final_state;
                Schemas.cached := false |}.
Proof.
  destruct (ainvoke greeting_graph (chat_initial_state hello))
    as [final_state | e] eqn:Hinvoke; [| vm_compute in Hinvoke; discriminate].
  assert (Hlen : 2 <= length (messages final_state)).
  { vm_compute in Hinvoke. injection Hinvoke as <-. cbn. lia. }
  split; [exists final_state; split; [reflexivity | exact Hlen] |].
  destruct (chat_outcomes greeting_graph hello no_sessions) as (_ & _ & Hok & _).
  destruct (Hok final_state Hinvoke Hlen) as (m & _ & Hchat).
  exists m, final_state. exact Hchat.
Defined.

Lemma get_schedule_always_succeeds_witness :
  storage_one (Tooling.schedule_query [])
  = Ok [PDict [("title", PStr "뮤직뱅크")]]
  /\ Executor.execute storage_one letters_ok 0 "get_schedule" [] "s1" None
     = [ ("success", PBool true);
         ("data",
          PDict [ ("schedules", PList [PDict [("title", PStr "뮤직뱅크")]]);
                  ("count", PInt 1) ]) ].
Proof.
  split; [reflexivity |].
  destruct (get_schedule_always_succeeds storage_one letters_ok 0 [] "s1" None)
    as (_ & Hrecords & _).
  apply (Hrecords (PDict [("title", PStr "뮤직뱅크")]) []). reflexivity.
Defined.

Lemma schedule_query_filters_witness :
  lookup [("start_date", PStr "2025-01-06")] "event_type" = None
  /\ filter (fun f => Tooling.is_eq_filter f = true)
       (Schedule.q_filters
          (Tooling.schedule_query [("start_date", PStr "2025-01-06")])) = [].
Proof.
  split; [reflexivity |].
  destruct (schedule_query_filters [("start_date", PStr "2025-01-06")])
    as (_ & _ & _ & _ & Hnone).
  apply Hnone. reflexivity.
Defined.

Lemma recommend_song_for_any_mood_witness :
  hashable (get [("mood", PStr "angry")] "mood" (PStr "happy")) = Ok tt
  /\ exists s,
       Executor.execute storage_empty letters_down 2 "recommend_song"
         [("mood", PStr "angry")] "s1" None
       = [ ("success", PBool true);
           ("data", PDict [("song", s); ("mood", PStr "angry")]);
           ("mock", PBool true) ]
       /\ In s (Executor.songs_of "happy").
Proof.
  split; [reflexivity |].
  destruct (recommend_song_for_any_mood storage_empty letters_down 2
              [("mood", PStr "angry")] "s1" None) as (Hok & _).
  destruct (Hok eq_refl) as (s & Henvelope & _ & Htable).
  exists s. split; [exact Henvelope | exact Htable].
Defined.

Lemma send_fan_letter_result_witness :
  Executor.slice_prefix (get [("message", PStr "사랑해요")] "message" (PStr "")) = Ok tt
  /\ Executor.execute storage_empty letters_ok 0 "send_fan_letter"
       [("message", PStr "사랑해요")] "s1" None
     = [ ("success", PBool true);
         ("data", PDict [ ("letter_id", PInt 7);
                          ("message", PStr "팬레터가 잘 전달됐어요!") ]) ]
  /\ Executor.execute storage_empty letters_ok 0 "send_fan_letter"
       [("message", PInt 3)] "s1" None
     = [("success", PBool false);
        ("error", PStr "'int' object is not subscriptable")].
Proof.
  split; [reflexivity |]. split.
  - destruct (send_fan_letter_result storage_empty letters_ok 0
                [("message", PStr "사랑해요")] "s1" None) as (Hok & _).
    apply (Hok (PInt 7)); reflexivity.
  - destruct (send_fan_letter_result storage_empty letters_ok 0
                [("message", PInt 3)] "s1" None) as (_ & Hfail & _).
    apply (Hfail _ letters_ok). reflexivity.
Defined.

Lemma graph_is_built_once_witness :
  0 < 2
  /\ Singleton.calls (router_to rag) retrieve run_tool (fixed_reply "ok") 2 None
     = (repeat (create_lumi_graph (router_to rag) retrieve run_tool (fixed_reply "ok")) 2,
        Some (create_lumi_graph (router_to rag) retrieve run_tool (fixed_reply "ok")),
        1).
Proof.
  split; [lia |].
  pose proof (graph_is_built_once (router_to rag) retrieve run_tool
                (fixed_reply "ok") 2 None) as H.
  cbn zeta in H.
  destruct (Singleton.calls (router_to rag) retrieve run_tool (fixed_reply "ok") 2 None)
    as [[graphs cache'] built].
  destruct H as (-> & Hcache & ->). rewrite Hcache by lia. reflexivity.
Defined.

Lemma clipped_diff_is_bounded_witness :
  length [100; 105; 102; 102] <= Reviewer.diff_limit
  /\ Reviewer.clip [100; 105; 102; 102] = [100; 105; 102; 102].
Proof.
  assert (Hshort : length [100; 105; 102; 102] <= Reviewer.diff_limit).
  { unfold Reviewer.diff_limit. cbn [length]. lia. }
  split; [exact Hshort |].
  destruct (clipped_diff_is_bounded [100; 105; 102; 102]) as (_ & Hsame & _).
  apply Hsame. exact Hshort.
Defined.

Lemma review_exit_codes_witness :
  Reviewer.truthy_text (Some []) = false
  /\ Reviewer.main (Some []) (Reviewer.Completed []) (Reviewer.Completed [100])
       (fun _ => Ok [111; 107])
     = (Reviewer.MissingKey, Some 1%Z).
Proof.
  split; [reflexivity |].
  destruct (review_exit_codes (Some []) (Reviewer.Completed [])
              (Reviewer.Completed [100]) (fun _ => Ok [111; 107]))
    as (Hkey & _).
  apply Hkey. reflexivity.
Defined.

Lemma status_per_executed_node_witness :
  intent (after_node (router_to tool)
            (stream_initial_state "날씨" "s1" None no_sessions)) = Some tool
  /\ sent Schemas.thinking (fst (chat_stream weather_graph weather no_sessions))
     = [ Some "🔀 루미 생각 중..."; Some "🔧 도구 실행 중...";
         Some "💬 응답 작성 중..." ].
Proof.
  split; [reflexivity |].
  destruct (status_per_executed_node (router_to tool) retrieve run_tool
              (Nodes.response_node (fun _ => ["맑음"])) weather no_sessions tool
              eq_refl) as (_ & Hsent).
  exact Hsent.
Defined.

Lemma tool_used_comes_from_tool_node_witness :
  intent (after_node (router_to tool)
            (stream_initial_state "날씨" "s1" None no_sessions)) = Some tool
  /\ resolved_tool weather_graph "날씨" "s1" None no_sessions
     = Some "get_weather".
Proof.
  split; [reflexivity |].
  exact (tool_used_comes_from_tool_node (router_to tool) retrieve run_tool
           (Nodes.response_node (fun _ => ["맑음"])) weather no_sessions tool
           eq_refl).
Defined.

Lemma empty_session_is_default_witness :
  "s1" <> "" /\ session_key "s1" = "s1".
Proof.
  assert (Hne : "s1" <> "") by discriminate.
  split; [exact Hne |].
  destruct (empty_session_is_default greeting_graph [] "안녕" "s1" None no_sessions)
    as (_ & _ & _ & Hkey).
  apply Hkey. exact Hne.
Defined.

End MoreInstances.
